(** * Copilot Line Tracking: the accounting engine of [src/extension.ts]

    A shallow embedding of the extension's [activate] closure: the closure
    variables become the fields of one [State] record, every inner function
    ([clearStats], [shouldTrackFile], [saveStatsToFile], [scheduleSave],
    [saveStats], [updateFileStats], [countNonEmptyLines]) and every
    registered handler becomes a function on that record, and the calls to
    the host (quick-reload store, file system, timers) are appended to a
    trace kept in the state.

    Conventions.
    - A JavaScript [number] holding a line count is a [Z]; the counts stay
      far below 2^53, where the arithmetic of doubles is exact.
    - A JavaScript string is a [string] whose characters stand for the code
      units below 256.
    - What the host decides (the configuration, the workspace root, the
      outcome of a file write, what the clock shows at each reading, what
      the platform's [path] module returns) is gathered in a [Host]
      record, an argument of every function.
    - The trace holds the calls that persist something: to the
      quick-reload store, to the file system and to the debounce timer of
      [scheduleSave].  The calls that only show something (the log, the
      status bar and its refresh interval, the messages) are not part of
      it. *)

From Stdlib Require Import ZArith List String Ascii Bool Lia DecimalString.
Import ListNotations.

Local Open Scope string_scope.
Local Open Scope Z_scope.

(** ** The string built-ins the extension calls *)

Module JS.

Definition LF : ascii := "010"%char.
Definition DQUOTE : ascii := "034"%char.
Definition SQUOTE : ascii := "039"%char.
Definition BACKSLASH : ascii := "092"%char.

(** [s.includes(t)] *)
Fixpoint includes (s t : string) : bool :=
  String.prefix t s ||
  match s with
  | EmptyString => false
  | String _ s' => includes s' t
  end.

(** [s.endsWith(t)] *)
Definition endsWith (s t : string) : bool :=
  (String.length t <=? String.length s)%nat &&
  String.eqb (substring (String.length s - String.length t) (String.length t) s) t.

(** White space and line terminators stripped by [trim], below 256. *)
Definition isWhiteSpace (c : ascii) : bool :=
  let n := nat_of_ascii c in
  ((9 <=? n) && (n <=? 13) || (n =? 32) || (n =? 160))%nat.

Fixpoint trimStart (s : string) : string :=
  match s with
  | EmptyString => EmptyString
  | String c s' => if isWhiteSpace c then trimStart s' else s
  end.

Fixpoint trimEnd (s : string) : string :=
  match s with
  | EmptyString => EmptyString
  | String c s' =>
      match trimEnd s' with
      | EmptyString => if isWhiteSpace c then EmptyString else String c EmptyString
      | r => String c r
      end
  end.

(** [s.trim()] *)
Definition trim (s : string) : string := trimEnd (trimStart s).

(** [s.split(sep)] for a one-character separator. *)
Fixpoint split (sep : ascii) (s : string) : list string :=
  match s with
  | EmptyString => [EmptyString]
  | String c s' =>
      if Ascii.eqb c sep then EmptyString :: split sep s'
      else match split sep s' with
           | h :: t => String c h :: t
           | [] => [String c EmptyString]
           end
  end.

Definition lowerChar (c : ascii) : ascii :=
  let n := nat_of_ascii c in
  if ((65 <=? n) && (n <=? 90) ||
      (192 <=? n) && (n <=? 222) && negb (n =? 215))%nat
  then ascii_of_nat (n + 32) else c.

(** [s.toLowerCase()] *)
Fixpoint toLowerCase (s : string) : string :=
  match s with
  | EmptyString => EmptyString
  | String c s' => String (lowerChar c) (toLowerCase s')
  end.

(** Truthiness of an optional string: [undefined] and [''] are falsy. *)
Definition truthy (o : option string) : bool :=
  match o with
  | Some (String _ _) => true
  | _ => false
  end.

(** *** [JSON.stringify] on the shapes the extension serialises *)

Definition hexDigit (n : nat) : ascii :=
  if (n <? 10)%nat then ascii_of_nat (48 + n) else ascii_of_nat (87 + n).

Definition quoteChar (c : ascii) : string :=
  let n := nat_of_ascii c in
  if Ascii.eqb c DQUOTE then String BACKSLASH (String DQUOTE EmptyString)
  else if Ascii.eqb c BACKSLASH then String BACKSLASH (String BACKSLASH EmptyString)
  else if (n =? 8)%nat then "\b"
  else if (n =? 9)%nat then "\t"
  else if (n =? 10)%nat then "\n"
  else if (n =? 12)%nat then "\f"
  else if (n =? 13)%nat then "\r"
  else if (n <? 32)%nat
       then "\u00" ++ String (hexDigit (n / 16)) (String (hexDigit (n mod 16)) EmptyString)
  else String c EmptyString.

Fixpoint quoteBody (s : string) : string :=
  match s with
  | EmptyString => EmptyString
  | String c s' => quoteChar c ++ quoteBody s'
  end.

Definition stringifyString (s : string) : string :=
  String DQUOTE (quoteBody s ++ String DQUOTE EmptyString).

Definition stringifyNumber (z : Z) : string :=
  NilZero.string_of_int (Z.to_int z).

Definition member (k v : string) : string := stringifyString k ++ ":" ++ v.

Fixpoint joinComma (l : list string) : string :=
  match l with
  | [] => EmptyString
  | [x] => x
  | x :: rest => x ++ "," ++ joinComma rest
  end.

Definition object (members : list string) : string :=
  "{" ++ joinComma members ++ "}".

End JS.

(** ** Data model: the interfaces of [extension.ts] *)

(** One entry of [fileStats]. *)
Record FileStat := mkFileStat {
  f_totalLines : Z;
  f_copilotLines : Z
}.

(** [fileStats] is a JavaScript object used as a map: its own string keys
    are kept in insertion order, which [JSON.stringify] follows. *)
Definition FileStats := list (string * FileStat).

Record CopilotStats := mkCopilotStats {
  totalLines : Z;
  copilotLines : Z;
  lastUpdated : string;
  fileStats : FileStats
}.

Record RepositoryStats := mkRepositoryStats {
  r_stats : CopilotStats;
  r_repository : string;
  r_lastUpdated : string
}.

Definition stringifyFileStat (r : FileStat) : string :=
  JS.object [ JS.member "totalLines" (JS.stringifyNumber (f_totalLines r));
              JS.member "copilotLines" (JS.stringifyNumber (f_copilotLines r)) ].

(** [JSON.stringify(stats)] *)
Definition stringifyStats (st : CopilotStats) : string :=
  JS.object
    [ JS.member "totalLines" (JS.stringifyNumber (totalLines st));
      JS.member "copilotLines" (JS.stringifyNumber (copilotLines st));
      JS.member "lastUpdated" (JS.stringifyString (lastUpdated st));
      JS.member "fileStats"
        (JS.object (map (fun kv => JS.member (fst kv) (stringifyFileStat (snd kv)))
                        (fileStats st))) ].

(** *** Property access on [fileStats] *)

Fixpoint lookup (k : string) (m : FileStats) : option FileStat :=
  match m with
  | [] => None
  | (k', r) :: m' => if String.eqb k k' then Some r else lookup k m'
  end.

(** [m[k] = r]: an existing key keeps its place, a new key goes last. *)
Fixpoint assign (k : string) (r : FileStat) (m : FileStats) : FileStats :=
  match m with
  | [] => [(k, r)]
  | (k', r') :: m' =>
      if String.eqb k k' then (k', r) :: m' else (k', r') :: assign k r m'
  end.

(** ** What the extension asks of the host *)

Inductive Effect :=
| GlobalStateUpdate (value : option CopilotStats)   (* context.globalState.update('copilotStats', _) *)
| WriteFileSync (path : string) (value : RepositoryStats) (* fs.writeFileSync(path, JSON.stringify(value, null, 2)) *)
| ConsoleError                                       (* the catch branch of saveStatsToFile *)
| ClearTimeout (timer : nat)
| SetTimeout (timer : nat) (delay : Z).

(** The host as seen by the extension: the configured extensions, the
    first workspace folder, whether a file write succeeds, what the
    n-th evaluation of [new Date().toISOString()] returns, and the two
    functions of the platform's [path] module the extension calls,
    [path.join] on a root and a file name and [path.basename]. *)
Record Host := mkHost {
  trackedExtensions : list string;
  workspaceRoot : option string;
  writeSucceeds : bool;
  clock : nat -> string;
  pathJoin : string -> string -> string;
  pathBasename : string -> string
}.

(** The default of [config.get('trackedExtensions', ...)]. *)
Definition defaultExtensions : list string :=
  [ ".js"; ".jsx"; ".ts"; ".tsx"; ".py"; ".java"; ".c"; ".cpp"; ".h"; ".hpp";
    ".cs"; ".go"; ".rb"; ".php"; ".swift"; ".kt"; ".rs"; ".dart"; ".vue";
    ".html"; ".css"; ".scss"; ".sass"; ".less"; ".json"; ".xml"; ".yaml";
    ".yml"; ".md"; ".sql"; ".sh"; ".bash"; ".ps1"; ".schema" ].

(** The snapshot path under a POSIX root written without a trailing
    separator: the root, a slash, the file name. *)
Definition path_join (root name : string) : string := root ++ "/" ++ name.

Definition statsFileName : string := ".copilot-stats.json".

(** A [vscode.TextDocument], as far as the extension reads it. *)
Record TextDocument := mkTextDocument {
  fsPath : string;
  lineCount : Z
}.

(** ** The closure variables of [activate] *)

Record State := mkState {
  stats : CopilotStats;
  lastSavedStats : string;
  saveTimeout : option nat;
  lastCopilotSuggestion : option string;
  isAcceptingSuggestion : bool;
  pendingCopilotLines : Z;
  trace : list Effect;      (* host calls made so far, oldest first *)
  nextTimer : nat;          (* the handle the next setTimeout returns *)
  clockReads : nat          (* how often the clock has been read *)
}.

(** *** Assignments to the closure variables and to the fields of [stats] *)

Definition with_stats (st : CopilotStats) (s : State) : State :=
  mkState st (lastSavedStats s) (saveTimeout s) (lastCopilotSuggestion s)
          (isAcceptingSuggestion s) (pendingCopilotLines s) (trace s)
          (nextTimer s) (clockReads s).

Definition with_lastSavedStats (v : string) (s : State) : State :=
  mkState (stats s) v (saveTimeout s) (lastCopilotSuggestion s)
          (isAcceptingSuggestion s) (pendingCopilotLines s) (trace s)
          (nextTimer s) (clockReads s).

(** [saveTimeout = setTimeout(...)]: the handle handed out is used up. *)
Definition with_saveTimeout (t : nat) (s : State) : State :=
  mkState (stats s) (lastSavedStats s) (Some t) (lastCopilotSuggestion s)
          (isAcceptingSuggestion s) (pendingCopilotLines s) (trace s)
          (S (nextTimer s)) (clockReads s).

Definition with_lastCopilotSuggestion (v : option string) (s : State) : State :=
  mkState (stats s) (lastSavedStats s) (saveTimeout s) v
          (isAcceptingSuggestion s) (pendingCopilotLines s) (trace s)
          (nextTimer s) (clockReads s).

Definition with_isAcceptingSuggestion (b : bool) (s : State) : State :=
  mkState (stats s) (lastSavedStats s) (saveTimeout s) (lastCopilotSuggestion s)
          b (pendingCopilotLines s) (trace s) (nextTimer s) (clockReads s).

Definition with_pendingCopilotLines (n : Z) (s : State) : State :=
  mkState (stats s) (lastSavedStats s) (saveTimeout s) (lastCopilotSuggestion s)
          (isAcceptingSuggestion s) n (trace s) (nextTimer s) (clockReads s).

(** A call to the host. *)
Definition emit (e : Effect) (s : State) : State :=
  mkState (stats s) (lastSavedStats s) (saveTimeout s) (lastCopilotSuggestion s)
          (isAcceptingSuggestion s) (pendingCopilotLines s) (trace s ++ [e])
          (nextTimer s) (clockReads s).

(** One reading of the clock has been made. *)
Definition tick (s : State) : State :=
  mkState (stats s) (lastSavedStats s) (saveTimeout s) (lastCopilotSuggestion s)
          (isAcceptingSuggestion s) (pendingCopilotLines s) (trace s)
          (nextTimer s) (S (clockReads s)).

Definition set_totalLines (n : Z) (s : State) : State :=
  with_stats (mkCopilotStats n (copilotLines (stats s)) (lastUpdated (stats s))
                             (fileStats (stats s))) s.

Definition set_copilotLines (n : Z) (s : State) : State :=
  with_stats (mkCopilotStats (totalLines (stats s)) n (lastUpdated (stats s))
                             (fileStats (stats s))) s.

Definition set_lastUpdated (d : string) (s : State) : State :=
  with_stats (mkCopilotStats (totalLines (stats s)) (copilotLines (stats s)) d
                             (fileStats (stats s))) s.

Definition set_file (filePath : string) (r : FileStat) (s : State) : State :=
  with_stats (mkCopilotStats (totalLines (stats s)) (copilotLines (stats s))
                             (lastUpdated (stats s))
                             (assign filePath r (fileStats (stats s)))) s.

(** [stats.fileStats[filePath]], read where the entry is known to exist
    (every read below follows the insert-on-first-touch of its handler). *)
Definition file (filePath : string) (s : State) : FileStat :=
  match lookup filePath (fileStats (stats s)) with
  | Some r => r
  | None => mkFileStat 0 0
  end.

Definition set_file_totalLines (filePath : string) (n : Z) (s : State) : State :=
  set_file filePath (mkFileStat n (f_copilotLines (file filePath s))) s.

Definition set_file_copilotLines (filePath : string) (n : Z) (s : State) : State :=
  set_file filePath (mkFileStat (f_totalLines (file filePath s)) n) s.

(** [if (!stats.fileStats[filePath]) stats.fileStats[filePath] = {...}],
    both counters zero. *)
Definition touch (filePath : string) (s : State) : State :=
  match lookup filePath (fileStats (stats s)) with
  | Some _ => s
  | None => set_file filePath (mkFileStat 0 0) s
  end.

Definition emptyStats (now : string) : CopilotStats := mkCopilotStats 0 0 now [].

(** ** The inner functions of [activate]

    In dependency order; [clearStats], which the source declares first,
    comes after [saveStatsToFile], which it calls. *)

Section Engine.

Variable host : Host.

(** [new Date().toISOString()] *)
Definition toISOString (s : State) : string := clock host (clockReads s).

(** [stats.lastUpdated = new Date().toISOString()] *)
Definition stamp (s : State) : State := set_lastUpdated (toISOString s) (tick s).

Definition shouldTrackFile (filePath : string) : bool :=
  if JS.includes filePath "/response_" || JS.includes filePath "\response_" then false
  else if JS.includes filePath "/.git/" || JS.includes filePath "\.git\" then false
  else if JS.includes filePath "/node_modules/" || JS.includes filePath "\node_modules\"
  then false
  else if JS.endsWith filePath ".copilot-stats.json" then false
  else existsb (fun ext => JS.endsWith (JS.toLowerCase filePath) ext)
               (trackedExtensions host).

(** [workspaceFolders[0].uri.fsPath], or [undefined]. *)
Definition getRepositoryRoot : option string := workspaceRoot host.

Definition saveStatsToFile (s : State) : State :=
  match getRepositoryRoot with
  | Some (String _ _ as repoRoot) =>
      let currentStats := stringifyStats (stats s) in
      if String.eqb currentStats (lastSavedStats s) then s
      else
        let statsFilePath := pathJoin host repoRoot statsFileName in
        let repositoryStats :=
          mkRepositoryStats (stats s) (pathBasename host repoRoot) (toISOString s) in
        let s := tick s in
        if writeSucceeds host
        then with_lastSavedStats currentStats
               (emit (WriteFileSync statsFilePath repositoryStats) s)
        else emit ConsoleError s
  | _ => s
  end.

(** [setTimeout(saveStatsToFile, 5000)], any earlier timer cancelled. *)
Definition scheduleSave (s : State) : State :=
  let s := match saveTimeout s with
           | Some t => emit (ClearTimeout t) s
           | None => s
           end in
  with_saveTimeout (nextTimer s) (emit (SetTimeout (nextTimer s) 5000) s).

Definition saveStats (s : State) : State :=
  scheduleSave (emit (GlobalStateUpdate (Some (stats s))) s).

Definition clearStats (s : State) : State :=
  let s := with_stats (emptyStats (toISOString s)) (tick s) in
  let s := with_lastSavedStats (stringifyStats (stats s)) s in
  let s := emit (GlobalStateUpdate None) s in
  saveStatsToFile s.

Definition updateFileStats (document : TextDocument) (s : State) : State :=
  let filePath := fsPath document in
  if negb (shouldTrackFile filePath) then s
  else
    let lineCount := lineCount document in
    let s := touch filePath s in
    let oldTotal := f_totalLines (file filePath s) in
    if oldTotal =? lineCount then s
    else
      let s := set_file_totalLines filePath lineCount s in
      let s := set_totalLines (totalLines (stats s) - oldTotal + lineCount) s in
      let s :=
        if (oldTotal =? 0) && (0 <? pendingCopilotLines s) then
          let s := set_file_copilotLines filePath
                     (Z.min (pendingCopilotLines s) lineCount) s in
          let s := set_copilotLines
                     (copilotLines (stats s) + f_copilotLines (file filePath s)) s in
          with_pendingCopilotLines 0 s
        else s in
      let s :=
        if lineCount <? f_copilotLines (file filePath s) then
          let excess := f_copilotLines (file filePath s) - lineCount in
          let s := set_file_copilotLines filePath lineCount s in
          set_copilotLines (copilotLines (stats s) - excess) s
        else s in
      let s := stamp s in
      saveStats s.

Definition countNonEmptyLines (text : string) : Z :=
  Z.of_nat (List.length
              (filter (fun line => (0 <? String.length (JS.trim line))%nat)
                      (JS.split JS.LF text))).

(** *** The registered handlers *)

(** [provideInlineCompletionItems]; [automatic] is the test on
    [context.triggerKind], [currentLine] is [document.lineAt(...).text]. *)
Definition provideInlineCompletionItems
           (automatic : bool) (currentLine : string) (s : State) : State :=
  if automatic
  then with_isAcceptingSuggestion true
         (with_lastCopilotSuggestion (Some currentLine) s)
  else s.

Definition isCompleteStatement (newText : string) : bool :=
  JS.endsWith (JS.trim newText) ";" ||
  JS.endsWith (JS.trim newText) "}" ||
  JS.endsWith (JS.trim newText) ")" ||
  JS.endsWith (JS.trim newText) "]" ||
  JS.endsWith (JS.trim newText) (String JS.DQUOTE EmptyString) ||
  JS.endsWith (JS.trim newText) (String JS.SQUOTE EmptyString).

(** The callback given to [event.contentChanges.some]: its verdict on
    one inserted text, and the closure variables it leaves behind. *)
Definition classifyChange (newText : string) (s : State) : bool * State :=
  if isAcceptingSuggestion s
  then (true, with_isAcceptingSuggestion false s)
  else if JS.truthy (lastCopilotSuggestion s) &&
          JS.includes newText
            (match lastCopilotSuggestion s with Some t => t | None => EmptyString end)
  then (true, with_lastCopilotSuggestion None s)
  else
    let isMultiLine := JS.includes newText (String JS.LF EmptyString) in
    (isMultiLine || isCompleteStatement newText, s).

(** [contentChanges.some(callback)]: the callback runs on the changes
    in order and stops at the first one it accepts. *)
Fixpoint isCopilotChange (contentChanges : list string) (s : State) : bool * State :=
  match contentChanges with
  | [] => (false, s)
  | change :: rest =>
      let (verdict, s) := classifyChange change s in
      if verdict then (true, s) else isCopilotChange rest s
  end.

(** [contentChanges.reduce((count, change) => count +
    countNonEmptyLines(change.text), 0)] *)
Definition newLinesOf (contentChanges : list string) : Z :=
  fold_left (fun count change => count + countNonEmptyLines change) contentChanges 0.

(** The body of [if (isCopilotChange) { ... }] in the change handler,
    with [newLines] already reduced from the event. *)
Definition applyCopilotLines (filePath : string) (newLines : Z) (s : State) : State :=
  let s := touch filePath s in
  if 0 <? newLines then
    if f_totalLines (file filePath s) =? 0
    then with_pendingCopilotLines (pendingCopilotLines s + newLines) s
    else
      let currentTotal := f_totalLines (file filePath s) in
      let currentCopilot := f_copilotLines (file filePath s) in
      let newCopilotTotal := currentCopilot + newLines in
      if newCopilotTotal <=? currentTotal then
        let s := set_file_copilotLines filePath newCopilotTotal s in
        let s := set_copilotLines (copilotLines (stats s) + newLines) s in
        let s := stamp s in
        saveStats s
      else s
  else s.

(** [vscode.workspace.onDidChangeTextDocument] *)
Definition onDidChangeTextDocument
           (document : TextDocument) (contentChanges : list string) (s : State) : State :=
  let filePath := fsPath document in
  if negb (shouldTrackFile filePath) then s
  else
    let (verdict, s) := isCopilotChange contentChanges s in
    let s := if verdict
             then applyCopilotLines filePath (newLinesOf contentChanges) s
             else s in
    updateFileStats document s.

(** [vscode.workspace.onDidOpenTextDocument] *)
Definition onDidOpenTextDocument (document : TextDocument) (s : State) : State :=
  updateFileStats document s.

(** [vscode.workspace.onDidChangeConfiguration]; [affects] is
    [event.affectsConfiguration('copilotLineTracking')], [documents] is
    [vscode.workspace.textDocuments]. *)
Definition onDidChangeConfiguration
           (affects : bool) (documents : list TextDocument) (s : State) : State :=
  if affects then fold_left (fun s document => updateFileStats document s) documents s
  else s.

(** The command [copilot-line-tracking.clearStats]. *)
Definition clearStatsCommand (s : State) : State := clearStats s.

(** The timer set by [scheduleSave] fires. *)
Definition onSaveTimeout (s : State) : State := saveStatsToFile s.

End Engine.

(** The state [activate] leaves behind; [loaded] is what [loadStats]
    finds in the quick-reload store.  The initial [saveStatsToFile()]
    compares the serialised stats with themselves. *)
Definition activate (host : Host) (loaded : option CopilotStats) : State :=
  let s0 := mkState (emptyStats EmptyString) EmptyString None None false 0 [] 0 0 in
  let s :=
    match loaded with
    | Some st => with_stats st s0
    | None => with_stats (emptyStats (toISOString host s0)) (tick s0)
    end in
  saveStatsToFile host (with_lastSavedStats (stringifyStats (stats s)) s).


(** ** Sessions: the host delivers one event at a time *)

Inductive Event :=
| InlineCompletion (automatic : bool) (currentLine : string)
| ChangeTextDocument (document : TextDocument) (contentChanges : list string)
| OpenTextDocument (document : TextDocument)
| ChangeConfiguration (affects : bool) (documents : list TextDocument)
| ClearStatsCommand
| SaveTimeout.

Definition handle (host : Host) (e : Event) (s : State) : State :=
  match e with
  | InlineCompletion automatic currentLine =>
      provideInlineCompletionItems automatic currentLine s
  | ChangeTextDocument document contentChanges =>
      onDidChangeTextDocument host document contentChanges s
  | OpenTextDocument document => onDidOpenTextDocument host document s
  | ChangeConfiguration affects documents =>
      onDidChangeConfiguration host affects documents s
  | ClearStatsCommand => clearStatsCommand host s
  | SaveTimeout => onSaveTimeout host s
  end.

(** A session: each event comes with the host as it is at that time. *)
Definition run (events : list (Host * Event)) (s : State) : State :=
  fold_left (fun s he => handle (fst he) (snd he) s) events s.

(** The editor reports a line count that is not negative. *)
Definition document_ok (d : TextDocument) : Prop := 0 <= lineCount d.

Definition event_ok (e : Event) : Prop :=
  match e with
  | ChangeTextDocument d _ => document_ok d
  | OpenTextDocument d => document_ok d
  | ChangeConfiguration _ ds => Forall document_ok ds
  | _ => True
  end.

(** ** The properties the counters are meant to keep *)

(** [0 <= copilotLines <= totalLines] for one entry of [fileStats]. *)
Definition record_ok (r : FileStat) : Prop :=
  0 <= f_copilotLines r <= f_totalLines r.

Definition files_ok (st : CopilotStats) : Prop :=
  Forall (fun kv => record_ok (snd kv)) (fileStats st).

Definition aggregate_ok (st : CopilotStats) : Prop :=
  0 <= copilotLines st <= totalLines st.

(** The bound on every per-file record and on the aggregate. *)
Definition bounds_ok (st : CopilotStats) : Prop :=
  files_ok st /\ aggregate_ok st.

Fixpoint sumTotalLines (m : FileStats) : Z :=
  match m with
  | [] => 0
  | (_, r) :: m' => f_totalLines r + sumTotalLines m'
  end.

Fixpoint sumCopilotLines (m : FileStats) : Z :=
  match m with
  | [] => 0
  | (_, r) :: m' => f_copilotLines r + sumCopilotLines m'
  end.

(** The aggregate is the element-wise sum of the per-file records. *)
Definition sums_ok (st : CopilotStats) : Prop :=
  totalLines st = sumTotalLines (fileStats st) /\
  copilotLines st = sumCopilotLines (fileStats st).

(** A record without lines has no AI lines. *)
Definition empty_files_ok (st : CopilotStats) : Prop :=
  Forall (fun kv => f_totalLines (snd kv) = 0 -> f_copilotLines (snd kv) = 0)
         (fileStats st).

(** Neither the bounds nor the sums are kept by the handlers on their
    own: the aggregate bound needs the sums, and the sum of the AI counts
    needs that a record without lines has no AI lines.  Together they
    are kept. *)
Definition Inv (st : CopilotStats) : Prop := files_ok st /\ sums_ok st.

Definition isWrite (e : Effect) : bool :=
  match e with
  | WriteFileSync _ _ => true
  | _ => false
  end.

Definition totalOf (o : option FileStat) : Z :=
  match o with Some r => f_totalLines r | None => 0 end.

Definition copilotOf (o : option FileStat) : Z :=
  match o with Some r => f_copilotLines r | None => 0 end.

(** The classifier writes the two suggestion variables and nothing else:
    what two states then still share. *)
Definition same_engine (s s' : State) : Prop :=
  stats s' = stats s /\ lastSavedStats s' = lastSavedStats s /\
  saveTimeout s' = saveTimeout s /\
  pendingCopilotLines s' = pendingCopilotLines s /\
  trace s' = trace s /\ nextTimer s' = nextTimer s /\ clockReads s' = clockReads s.

(** *** The blocks of [updateFileStats] and their closed forms *)

(** The three blocks of [updateFileStats] after the test on the line
    count: the totals, the pending lines, the clamp. *)
Definition totalsBlock (p : string) (n : Z) (s : State) : State :=
  let oldTotal := f_totalLines (file p s) in
  let s := set_file_totalLines p n s in
  set_totalLines (totalLines (stats s) - oldTotal + n) s.

Definition pendingBlock (p : string) (n oldTotal : Z) (s : State) : State :=
  if (oldTotal =? 0) && (0 <? pendingCopilotLines s) then
    let s := set_file_copilotLines p (Z.min (pendingCopilotLines s) n) s in
    let s := set_copilotLines (copilotLines (stats s) + f_copilotLines (file p s)) s in
    with_pendingCopilotLines 0 s
  else s.

Definition clampBlock (p : string) (n : Z) (s : State) : State :=
  if n <? f_copilotLines (file p s) then
    let excess := f_copilotLines (file p s) - n in
    let s := set_file_copilotLines p n s in
    set_copilotLines (copilotLines (stats s) - excess) s
  else s.

(** A state that differs from [s] in the counters only. *)
Definition counters (T C : Z) (m : FileStats) (pd : Z) (s : State) : State :=
  mkState (mkCopilotStats T C (lastUpdated (stats s)) m)
          (lastSavedStats s) (saveTimeout s) (lastCopilotSuggestion s)
          (isAcceptingSuggestion s) pd (trace s) (nextTimer s) (clockReads s).

(** What [updateFileStats] leaves behind once it has found a different
    line count, before [saveStats]: [fresh] is the test of the pending
    branch, [c1] and [a1] are the per-file and the aggregate AI counts
    after it, [c2] and [a2] after the clamp. *)
Definition updated (host : Host) (p : string) (n : Z) (s : State) : State :=
  let r := file p s in
  let fresh := (f_totalLines r =? 0) && (0 <? pendingCopilotLines s) in
  let c1 := if fresh then Z.min (pendingCopilotLines s) n else f_copilotLines r in
  let a1 := if fresh then copilotLines (stats s) + Z.min (pendingCopilotLines s) n
            else copilotLines (stats s) in
  let c2 := if n <? c1 then n else c1 in
  let a2 := if n <? c1 then a1 - (c1 - n) else a1 in
  mkState
    (mkCopilotStats (totalLines (stats s) - f_totalLines r + n) a2
                    (clock host (clockReads s))
                    (assign p (mkFileStat n c2) (fileStats (stats s))))
    (lastSavedStats s) (saveTimeout s) (lastCopilotSuggestion s)
    (isAcceptingSuggestion s) (if fresh then 0 else pendingCopilotLines s)
    (trace s) (nextTimer s) (S (clockReads s)).

(** The state after a committed attribution, before [saveStats]. *)
Definition committed (host : Host) (p : string) (k : Z) (s : State) : State :=
  mkState
    (mkCopilotStats (totalLines (stats s)) (copilotLines (stats s) + k)
                    (clock host (clockReads s))
                    (assign p (mkFileStat (f_totalLines (file p s))
                                          (f_copilotLines (file p s) + k))
                            (fileStats (stats s))))
    (lastSavedStats s) (saveTimeout s) (lastCopilotSuggestion s)
    (isAcceptingSuggestion s) (pendingCopilotLines s)
    (trace s) (nextTimer s) (S (clockReads s)).

(** The sum of the non-empty lines of all inserted texts of an event. *)
Fixpoint nonEmptyLinesOfAll (contentChanges : list string) : Z :=
  match contentChanges with
  | [] => 0
  | change :: rest => countNonEmptyLines change + nonEmptyLinesOfAll rest
  end.

(** The last character of a string, if it has one. *)
Fixpoint lastChar (s : string) : option ascii :=
  match s with
  | EmptyString => None
  | String a s' =>
      match lastChar s' with
      | Some b => Some b
      | None => Some a
      end
  end.

(** ** The classifier as the specification words it *)

Module Spec.

(** The text contains a line break. *)
Definition spansLines (text : string) : bool :=
  existsb (Ascii.eqb JS.LF) (list_ascii_of_string text).

(** The closing characters of the shape heuristic. *)
Definition closers : list ascii :=
  [ ";"%char; "}"%char; ")"%char; "]"%char; JS.DQUOTE; JS.SQUOTE ].

(** The trimmed form of the text ends with one of the closers. *)
Definition endsWithCloser (text : string) : bool :=
  match lastChar (JS.trim text) with
  | Some a => existsb (Ascii.eqb a) closers
  | None => false
  end.

Definition shape (text : string) : bool := spansLines text || endsWithCloser text.

(** The three-step decision of the specification, where an offered
    suggestion text is set when it is not [undefined]. *)
Definition classify (text : string) (s : State) : bool * State :=
  if isAcceptingSuggestion s then (true, with_isAcceptingSuggestion false s)
  else match lastCopilotSuggestion s with
       | Some offered =>
           if JS.includes text offered
           then (true, with_lastCopilotSuggestion None s)
           else (shape text, s)
       | None => (shape text, s)
       end.

(** The same decision, where an offered suggestion text is set when it
    is neither [undefined] nor the empty string. *)
Definition classifyNonEmpty (text : string) (s : State) : bool * State :=
  if isAcceptingSuggestion s then (true, with_isAcceptingSuggestion false s)
  else match lastCopilotSuggestion s with
       | Some (String _ _ as offered) =>
           if JS.includes text offered
           then (true, with_lastCopilotSuggestion None s)
           else (shape text, s)
       | _ => (shape text, s)
       end.

End Spec.

(** ** The file filter *)

(** The path lies under a [node_modules] directory, with either
    separator. *)
Definition underNodeModules (filePath : string) : Prop :=
  JS.includes filePath "/node_modules/" = true \/
  JS.includes filePath "\node_modules\" = true.

(** The path is the snapshot file [saveStatsToFile] writes for some
    workspace root. *)
Definition isSnapshotFile (filePath : string) : Prop :=
  exists repoRoot, filePath = path_join repoRoot statsFileName.

(** ** A workspace to evaluate the handlers in *)

Module Sample.

(** A POSIX host with the workspace [/repo]; the two path functions are
    given as [path.posix] computes them for that root. *)
Definition host : Host :=
  mkHost defaultExtensions (Some "/repo") true (fun _ => "2024-01-01T00:00:00.000Z")
         path_join (fun _ => "repo").

(** A fresh session. *)
Definition fresh : State := activate host None.

Definition a_ts : string := "/repo/src/a.ts".
Definition b_ts : string := "/repo/src/b.ts".

Definition doc (p : string) (n : Z) : TextDocument := mkTextDocument p n.

(** A session holding the given counters. *)
Definition holding (T C : Z) (m : FileStats) (pd : Z) : State :=
  with_pendingCopilotLines pd (with_stats (mkCopilotStats T C "2024-01-01T00:00:00.000Z" m) fresh).

End Sample.

(** ** What the trace of host calls says *)

(** The timers set and not cancelled since, oldest first. *)
Definition timerStep (live : list nat) (e : Effect) : list nat :=
  match e with
  | SetTimeout t _ => (live ++ [t])%list
  | ClearTimeout t => filter (fun u => negb (Nat.eqb u t)) live
  | _ => live
  end.

Definition liveTimers (tr : list Effect) : list nat := fold_left timerStep tr [].

(** What the quick-reload store holds under the key [copilotStats]:
    [None] while the session has not written it, [Some None] once
    [undefined] was stored. *)
Definition storeStep (held : option (option CopilotStats)) (e : Effect)
  : option (option CopilotStats) :=
  match e with
  | GlobalStateUpdate v => Some v
  | _ => held
  end.

Definition quickReload (tr : list Effect) : option (option CopilotStats) :=
  fold_left storeStep tr None.

(** The snapshot files written, oldest first. *)
Definition writes (tr : list Effect) : list Effect := filter isWrite tr.

(** An editor document has at least one line. *)
Definition editor_document (d : TextDocument) : Prop := 1 <= lineCount d.

Definition editor_event (e : Event) : Prop :=
  match e with
  | ChangeTextDocument d _ => editor_document d
  | OpenTextDocument d => editor_document d
  | ChangeConfiguration _ ds => Forall editor_document ds
  | _ => True
  end.

(** The timer the closure holds is the one timer not cancelled. *)
Definition timers_ok (s : State) : Prop :=
  liveTimers (trace s) = match saveTimeout s with Some t => [t] | None => [] end.

(** When the quick-reload store holds stats, they are the current ones. *)
Definition store_ok (s : State) : Prop :=
  forall st, quickReload (trace s) = Some (Some st) -> st = stats s.

Definition isTimer (e : Effect) : bool :=
  match e with
  | ClearTimeout _ | SetTimeout _ _ => true
  | _ => false
  end.

(** A step that makes no host call and leaves the timer variable. *)
Definition quiet (s s' : State) : Prop :=
  trace s' = trace s /\ saveTimeout s' = saveTimeout s.

(** How a handler gets from one state to another, as far as the host
    calls go: by quiet steps, by [saveStats], and by single host calls
    that are no timer calls and, unless [w] allows it, no file write. *)
Inductive reach (w : bool) (s : State) : State -> Prop :=
| reach_refl : reach w s s
| reach_quiet (u u' : State) : reach w s u -> quiet u u' -> reach w s u'
| reach_save (u : State) : reach w s u -> reach w s (saveStats u)
| reach_emit (u : State) (e : Effect) :
    reach w s u -> isTimer e = false -> (isWrite e = true -> w = true) ->
    reach w s (emit e u).

(** The pending lines are used up and the quick-reload store is current. *)
Definition settled (s : State) : Prop :=
  pendingCopilotLines s = 0 /\ store_ok s.

(** The invariant a session may start from: the loaded stats, if any. *)
Definition loaded_ok (loaded : option CopilotStats) : Prop :=
  match loaded with
  | Some st => Inv st
  | None => True
  end.

(** ** Counting in texts *)

(** The number of line feeds in a text. *)
Fixpoint countLF (s : string) : nat :=
  match s with
  | EmptyString => O
  | String c s' => ((if Ascii.eqb c JS.LF then 1 else 0) + countLF s')%nat
  end.

(** Every character of the text is white space or a line terminator. *)
Fixpoint allWhiteSpace (s : string) : bool :=
  match s with
  | EmptyString => true
  | String c s' => JS.isWhiteSpace c && allWhiteSpace s'
  end.

(** The text has no upper-case letter: [toLowerCase] leaves it as it is. *)
Definition isLowerCase (s : string) : Prop := JS.toLowerCase s = s.

(** [t] is what [s] ends with. *)
Definition suffixOf (t s : string) : Prop := exists pre, s = pre ++ t.

(** ** The earlier version of the extension

    The second source file of the repository is [extension.ts] before the
    file filter, the acceptance flag, the pending lines and the clamp
    were added.  [getRepositoryRoot], [saveStatsToFile], [scheduleSave]
    and [saveStats] are the same text in both files and are shared; the
    two closure variables the earlier file does not have are never
    written here. *)

Module Earlier.

Section Engine.

Variable host : Host.

Definition updateFileStats (document : TextDocument) (s : State) : State :=
  let filePath := fsPath document in
  let lineCount := lineCount document in
  let s := touch filePath s in
  let oldTotal := f_totalLines (file filePath s) in
  if oldTotal =? lineCount then s
  else
    let s := set_file_totalLines filePath lineCount s in
    let s := set_totalLines (totalLines (stats s) - oldTotal + lineCount) s in
    let s := stamp host s in
    saveStats s.

Definition provideInlineCompletionItems
           (automatic : bool) (currentLine : string) (s : State) : State :=
  if automatic then with_lastCopilotSuggestion (Some currentLine) s else s.

Definition isCompleteStatement (newText : string) : bool :=
  JS.endsWith (JS.trim newText) ";" ||
  JS.endsWith (JS.trim newText) "}" ||
  JS.endsWith (JS.trim newText) ")".

(** The callback given to [event.contentChanges.some]. *)
Definition classifyChange (newText : string) (s : State) : bool * State :=
  if JS.truthy (lastCopilotSuggestion s) &&
     JS.includes newText
       (match lastCopilotSuggestion s with Some t => t | None => EmptyString end)
  then (true, with_lastCopilotSuggestion None s)
  else
    let isMultiLine := JS.includes newText (String JS.LF EmptyString) in
    (isMultiLine && isCompleteStatement newText, s).

Fixpoint isCopilotChange (contentChanges : list string) (s : State) : bool * State :=
  match contentChanges with
  | [] => (false, s)
  | change :: rest =>
      let (verdict, s) := classifyChange change s in
      if verdict then (true, s) else isCopilotChange rest s
  end.

(** [contentChanges.reduce((count, change) => count +
    (change.text.split('\n').length - 1), 0)] *)
Definition newLinesOf (contentChanges : list string) : Z :=
  fold_left (fun count change =>
               count + (Z.of_nat (List.length (JS.split JS.LF change)) - 1))
            contentChanges 0.

(** The body of [if (isCopilotChange) { ... }]. *)
Definition applyCopilotLines (filePath : string) (newLines : Z) (s : State) : State :=
  let s := touch filePath s in
  if 0 <? newLines then
    let s := set_file_copilotLines filePath
               (f_copilotLines (file filePath s) + newLines) s in
    let s := set_copilotLines (copilotLines (stats s) + newLines) s in
    let s := stamp host s in
    saveStats s
  else s.

Definition onDidChangeTextDocument
           (document : TextDocument) (contentChanges : list string) (s : State) : State :=
  let (verdict, s) := isCopilotChange contentChanges s in
  let s := if verdict
           then applyCopilotLines (fsPath document) (newLinesOf contentChanges) s
           else s in
  updateFileStats document s.

Definition onDidOpenTextDocument (document : TextDocument) (s : State) : State :=
  updateFileStats document s.

End Engine.

End Earlier.

(** What the earlier [updateFileStats] leaves behind once it has found a
    different line count, before [saveStats]. *)
Definition earlierUpdated (host : Host) (p : string) (n : Z) (s : State) : State :=
  mkState
    (mkCopilotStats (totalLines (stats s) - f_totalLines (file p s) + n)
                    (copilotLines (stats s))
                    (clock host (clockReads s))
                    (assign p (mkFileStat n (f_copilotLines (file p s)))
                            (fileStats (stats s))))
    (lastSavedStats s) (saveTimeout s) (lastCopilotSuggestion s)
    (isAcceptingSuggestion s) (pendingCopilotLines s)
    (trace s) (nextTimer s) (S (clockReads s)).

(** The line feeds of all inserted texts of an event. *)
Fixpoint lineFeedsOfAll (contentChanges : list string) : nat :=
  match contentChanges with
  | [] => O
  | change :: rest => (countLF change + lineFeedsOfAll rest)%nat
  end.

(** ** Facts about the map *)

Lemma lookup_assign_same (k : string) (r : FileStat) (m : FileStats) :
  lookup k (assign k r m) = Some r.
Proof.
  induction m as [|[k' r'] m IH]; simpl.
  - now rewrite String.eqb_refl.
  - destruct (String.eqb k k') eqn:E; simpl; rewrite E; auto.
Qed.

Lemma lookup_assign_other (k k' : string) (r : FileStat) (m : FileStats) :
  k <> k' -> lookup k' (assign k r m) = lookup k' m.
Proof.
  intros Hne. induction m as [|[k0 r0] m IH]; simpl.
  - destruct (String.eqb k' k) eqn:E; auto.
    apply String.eqb_eq in E. congruence.
  - destruct (String.eqb k k0) eqn:E; simpl.
    + apply String.eqb_eq in E. subst k0.
      destruct (String.eqb k' k) eqn:E'; auto.
      apply String.eqb_eq in E'. congruence.
    + now rewrite IH.
Qed.

Lemma assign_assign (k : string) (r r' : FileStat) (m : FileStats) :
  assign k r' (assign k r m) = assign k r' m.
Proof.
  induction m as [|[k' r0] m IH]; simpl.
  - now rewrite String.eqb_refl.
  - destruct (String.eqb k k') eqn:E; simpl; rewrite E; congruence.
Qed.

Lemma assign_lookup (k : string) (r : FileStat) (m : FileStats) :
  lookup k m = Some r -> assign k r m = m.
Proof.
  induction m as [|[k' r0] m IH]; simpl; [discriminate|].
  destruct (String.eqb k k') eqn:E; intros H.
  - congruence.
  - now rewrite IH.
Qed.

Lemma sumTotalLines_assign (k : string) (r : FileStat) (m : FileStats) :
  sumTotalLines (assign k r m) =
  sumTotalLines m - totalOf (lookup k m) + f_totalLines r.
Proof.
  induction m as [|[k' r'] m IH]; simpl; [lia|].
  destruct (String.eqb k k'); simpl; lia.
Qed.

Lemma sumCopilotLines_assign (k : string) (r : FileStat) (m : FileStats) :
  sumCopilotLines (assign k r m) =
  sumCopilotLines m - copilotOf (lookup k m) + f_copilotLines r.
Proof.
  induction m as [|[k' r'] m IH]; simpl; [lia|].
  destruct (String.eqb k k'); simpl; lia.
Qed.

Lemma Forall_assign (P : string * FileStat -> Prop) (k : string) (r : FileStat)
      (m : FileStats) :
  (forall k', P (k', r)) -> Forall P m -> Forall P (assign k r m).
Proof.
  intros Hr. induction 1 as [|[k' r'] m Hx Hm IH]; simpl.
  - constructor; auto.
  - destruct (String.eqb k k'); constructor; auto.
Qed.

Lemma Forall_lookup (P : FileStat -> Prop) (k : string) (r : FileStat) (m : FileStats) :
  Forall (fun kv => P (snd kv)) m -> lookup k m = Some r -> P r.
Proof.
  induction 1 as [|[k' r'] m Hx Hm IH]; simpl; [discriminate|].
  destruct (String.eqb k k'); intros H; [injection H as <-; exact Hx | auto].
Qed.

Lemma sums_bounded (m : FileStats) :
  Forall (fun kv => record_ok (snd kv)) m ->
  0 <= sumCopilotLines m <= sumTotalLines m.
Proof.
  induction 1 as [|[k r] m Hx Hm IH]; simpl; [lia|].
  unfold record_ok in Hx; simpl in Hx. lia.
Qed.

(** With the sums in place the aggregate bound follows from the
    per-file ones. *)
Lemma aggregate_from_files (st : CopilotStats) :
  files_ok st -> sums_ok st -> aggregate_ok st.
Proof.
  intros Hf [Ht Hc]. unfold aggregate_ok. rewrite Ht, Hc. now apply sums_bounded.
Qed.

(** ** Closed forms of the two accounting steps *)

Lemma file_touch (p : string) (s : State) : file p (touch p s) = file p s.
Proof.
  unfold file, touch. destruct (lookup p (fileStats (stats s))) eqn:E.
  - now rewrite E.
  - simpl. now rewrite lookup_assign_same.
Qed.

Lemma file_set_file (p : string) (r : FileStat) (s : State) :
  file p (set_file p r s) = r.
Proof. unfold file, set_file. simpl. now rewrite lookup_assign_same. Qed.

Lemma file_set_file_other (p q : string) (r : FileStat) (s : State) :
  p <> q -> file q (set_file p r s) = file q s.
Proof. intros H. unfold file, set_file. simpl. now rewrite lookup_assign_other. Qed.

Lemma set_file_touch (p : string) (r : FileStat) (s : State) :
  set_file p r (touch p s) = set_file p r s.
Proof.
  unfold touch. destruct (lookup p (fileStats (stats s))); [reflexivity|].
  unfold set_file. simpl. now rewrite assign_assign.
Qed.

Lemma set_file_set_file (p : string) (r r' : FileStat) (s : State) :
  set_file p r' (set_file p r s) = set_file p r' s.
Proof. unfold set_file. simpl. now rewrite assign_assign. Qed.

(** A record whose stored total is not zero exists, so touching it
    changes nothing. *)
Lemma touch_nonzero (p : string) (s : State) :
  f_totalLines (file p s) <> 0 -> touch p s = s.
Proof.
  unfold file, touch. destruct (lookup p (fileStats (stats s))); simpl; congruence.
Qed.

Section ClosedForms.

Variable host : Host.

Lemma updateFileStats_blocks (document : TextDocument) (s : State) :
  updateFileStats host document s =
  let p := fsPath document in
  let n := lineCount document in
  if negb (shouldTrackFile host p) then s
  else
    let s := touch p s in
    let oldTotal := f_totalLines (file p s) in
    if oldTotal =? n then s
    else saveStats (stamp host
                      (clampBlock p n (pendingBlock p n oldTotal (totalsBlock p n s)))).
Proof. reflexivity. Qed.

Lemma totalsBlock_counters (p : string) (n : Z) (s : State) :
  totalsBlock p n (touch p s) =
  counters (totalLines (stats s) - f_totalLines (file p s) + n)
           (copilotLines (stats s))
           (assign p (mkFileStat n (f_copilotLines (file p s))) (fileStats (stats s)))
           (pendingCopilotLines s) s.
Proof.
  unfold totalsBlock, set_file_totalLines.
  rewrite file_touch, set_file_touch.
  unfold touch. destruct (lookup p (fileStats (stats s))); reflexivity.
Qed.

Lemma file_counters (p : string) (T C pd : Z) (r : FileStat) (m : FileStats) (s : State) :
  file p (counters T C (assign p r m) pd s) = r.
Proof. unfold file, counters. simpl. now rewrite lookup_assign_same. Qed.

Lemma set_file_counters (p : string) (T C pd : Z) (r r' : FileStat) (m : FileStats)
      (s : State) :
  set_file p r' (counters T C (assign p r m) pd s) =
  counters T C (assign p r' m) pd s.
Proof. unfold set_file, counters. simpl. now rewrite assign_assign. Qed.

Lemma pendingBlock_counters (p : string) (n old T C c pd : Z) (m : FileStats) (s : State) :
  pendingBlock p n old (counters T C (assign p (mkFileStat n c) m) pd s) =
  let fresh := (old =? 0) && (0 <? pd) in
  counters T (if fresh then C + Z.min pd n else C)
           (assign p (mkFileStat n (if fresh then Z.min pd n else c)) m)
           (if fresh then 0 else pd) s.
Proof.
  unfold pendingBlock. simpl pendingCopilotLines.
  destruct ((old =? 0) && (0 <? pd)); [|reflexivity].
  cbv zeta. unfold set_file_copilotLines.
  rewrite file_counters, set_file_counters, file_counters. reflexivity.
Qed.

Lemma clampBlock_counters (p : string) (n T C c pd : Z) (m : FileStats) (s : State) :
  clampBlock p n (counters T C (assign p (mkFileStat n c) m) pd s) =
  counters T (if n <? c then C - (c - n) else C)
           (assign p (mkFileStat n (if n <? c then n else c)) m) pd s.
Proof.
  unfold clampBlock. rewrite file_counters. simpl f_copilotLines.
  destruct (n <? c); [|reflexivity].
  cbv zeta. unfold set_file_copilotLines.
  rewrite file_counters, set_file_counters. reflexivity.
Qed.

Lemma updateFileStats_changed (document : TextDocument) (s : State) :
  shouldTrackFile host (fsPath document) = true ->
  f_totalLines (file (fsPath document) s) <> lineCount document ->
  updateFileStats host document s =
  saveStats (updated host (fsPath document) (lineCount document) s).
Proof.
  intros Ht Hne. rewrite updateFileStats_blocks. cbv zeta.
  rewrite Ht. simpl negb. cbv iota. rewrite file_touch.
  destruct (Z.eqb_spec (f_totalLines (file (fsPath document) s)) (lineCount document))
    as [|_]; [contradiction|].
  rewrite totalsBlock_counters, pendingBlock_counters. cbv zeta.
  rewrite clampBlock_counters. reflexivity.
Qed.

Lemma updateFileStats_same (document : TextDocument) (s : State) :
  shouldTrackFile host (fsPath document) = true ->
  f_totalLines (file (fsPath document) s) = lineCount document ->
  updateFileStats host document s = touch (fsPath document) s.
Proof.
  intros Ht He. rewrite updateFileStats_blocks. cbv zeta.
  rewrite Ht. simpl negb. cbv iota. rewrite file_touch, He, Z.eqb_refl. reflexivity.
Qed.

Lemma updateFileStats_untracked (document : TextDocument) (s : State) :
  shouldTrackFile host (fsPath document) = false ->
  updateFileStats host document s = s.
Proof. intros Ht. unfold updateFileStats. now rewrite Ht. Qed.

End ClosedForms.

(** *** The AI-attribution block of the change handler *)

Section Attribution.

Variable host : Host.

Lemma applyCopilotLines_none (p : string) (k : Z) (s : State) :
  k <= 0 -> applyCopilotLines host p k s = touch p s.
Proof.
  intros Hk. unfold applyCopilotLines. cbv zeta.
  destruct (Z.ltb_spec 0 k); [lia | reflexivity].
Qed.

Lemma applyCopilotLines_pending (p : string) (k : Z) (s : State) :
  0 < k -> f_totalLines (file p s) = 0 ->
  applyCopilotLines host p k s =
  with_pendingCopilotLines (pendingCopilotLines s + k) (touch p s).
Proof.
  intros Hk H0. unfold applyCopilotLines. cbv zeta.
  destruct (Z.ltb_spec 0 k); [|lia].
  rewrite file_touch, H0. simpl.
  unfold touch. destruct (lookup p (fileStats (stats s))); reflexivity.
Qed.

Lemma applyCopilotLines_commit (p : string) (k : Z) (s : State) :
  0 < k -> f_totalLines (file p s) <> 0 ->
  f_copilotLines (file p s) + k <= f_totalLines (file p s) ->
  applyCopilotLines host p k s = saveStats (committed host p k s).
Proof.
  intros Hk Hne Hle. unfold applyCopilotLines. cbv zeta.
  rewrite (touch_nonzero p s Hne).
  destruct (Z.ltb_spec 0 k); [|lia].
  destruct (Z.eqb_spec (f_totalLines (file p s)) 0); [contradiction|].
  destruct (Z.leb_spec (f_copilotLines (file p s) + k) (f_totalLines (file p s))); [|lia].
  reflexivity.
Qed.

Lemma applyCopilotLines_reject (p : string) (k : Z) (s : State) :
  f_totalLines (file p s) <> 0 ->
  f_totalLines (file p s) < f_copilotLines (file p s) + k ->
  applyCopilotLines host p k s = s.
Proof.
  intros Hne Hgt. unfold applyCopilotLines. cbv zeta.
  rewrite (touch_nonzero p s Hne).
  destruct (0 <? k); [|reflexivity].
  destruct (Z.eqb_spec (f_totalLines (file p s)) 0); [contradiction|].
  destruct (Z.leb_spec (f_copilotLines (file p s) + k) (f_totalLines (file p s)));
    [lia | reflexivity].
Qed.

End Attribution.

(** ** What the helpers leave alone *)

Lemma stats_scheduleSave (s : State) : stats (scheduleSave s) = stats s.
Proof. unfold scheduleSave. destruct (saveTimeout s); reflexivity. Qed.

Lemma stats_saveStats (s : State) : stats (saveStats s) = stats s.
Proof. unfold saveStats. now rewrite stats_scheduleSave. Qed.

Lemma pending_scheduleSave (s : State) :
  pendingCopilotLines (scheduleSave s) = pendingCopilotLines s.
Proof. unfold scheduleSave. destruct (saveTimeout s); reflexivity. Qed.

Lemma pending_saveStats (s : State) :
  pendingCopilotLines (saveStats s) = pendingCopilotLines s.
Proof. unfold saveStats. now rewrite pending_scheduleSave. Qed.

Lemma file_saveStats (p : string) (s : State) : file p (saveStats s) = file p s.
Proof. unfold file. now rewrite stats_saveStats. Qed.

Lemma stats_touch_lookup (p q : string) (s : State) :
  p <> q ->
  lookup q (fileStats (stats (touch p s))) = lookup q (fileStats (stats s)).
Proof.
  intros H. unfold touch. destruct (lookup p (fileStats (stats s))); [reflexivity|].
  simpl. now apply lookup_assign_other.
Qed.

Lemma same_engine_refl (s : State) : same_engine s s.
Proof. repeat split. Qed.

Lemma same_engine_trans (s1 s2 s3 : State) :
  same_engine s1 s2 -> same_engine s2 s3 -> same_engine s1 s3.
Proof. unfold same_engine. intuition congruence. Qed.

Lemma classifyChange_same_engine (newText : string) (s : State) :
  same_engine s (snd (classifyChange newText s)).
Proof.
  unfold classifyChange.
  destruct (isAcceptingSuggestion s); [repeat split|].
  destruct (JS.truthy (lastCopilotSuggestion s) && _); repeat split.
Qed.

Lemma isCopilotChange_same_engine (contentChanges : list string) (s : State) :
  same_engine s (snd (isCopilotChange contentChanges s)).
Proof.
  revert s. induction contentChanges as [|c cs IH]; intros s; simpl.
  - apply same_engine_refl.
  - pose proof (classifyChange_same_engine c s) as Hc.
    destruct (classifyChange c s) as [v s1]. simpl in Hc.
    destruct v; [exact Hc|].
    eapply same_engine_trans; [exact Hc | apply IH].
Qed.

Lemma file_same_engine (p : string) (s s' : State) :
  same_engine s s' -> file p s' = file p s.
Proof. intros [H _]. unfold file. now rewrite H. Qed.

(** ** The inductive invariant *)

Lemma totalOf_file (p : string) (s : State) :
  totalOf (lookup p (fileStats (stats s))) = f_totalLines (file p s).
Proof. unfold file. destruct (lookup p (fileStats (stats s))); reflexivity. Qed.

Lemma copilotOf_file (p : string) (s : State) :
  copilotOf (lookup p (fileStats (stats s))) = f_copilotLines (file p s).
Proof. unfold file. destruct (lookup p (fileStats (stats s))); reflexivity. Qed.

Lemma file_record_ok (p : string) (s : State) :
  files_ok (stats s) -> record_ok (file p s).
Proof.
  intros Hf. unfold file. destruct (lookup p (fileStats (stats s))) eqn:E.
  - exact (Forall_lookup record_ok p f _ Hf E).
  - unfold record_ok. simpl. lia.
Qed.

Lemma Inv_touch (p : string) (s : State) : Inv (stats s) -> Inv (stats (touch p s)).
Proof.
  intros [Hf [Ht Hc]]. unfold touch.
  destruct (lookup p (fileStats (stats s))) eqn:E; [now repeat split|].
  repeat split; simpl.
  - apply Forall_assign; [|exact Hf]. intros k0. unfold record_ok. simpl. lia.
  - rewrite sumTotalLines_assign, E. simpl. lia.
  - rewrite sumCopilotLines_assign, E. simpl. lia.
Qed.

Section Preservation.

Variable host : Host.

Lemma Inv_updated (p : string) (n : Z) (s : State) :
  Inv (stats s) -> 0 <= n -> Inv (stats (updated host p n s)).
Proof.
  intros [Hf [Ht Hc]] Hn.
  pose proof (file_record_ok p s Hf) as Hr. unfold record_ok in Hr.
  unfold updated. cbv zeta. repeat split; simpl.
  - apply Forall_assign; [|exact Hf]. intros k0. unfold record_ok. simpl.
    destruct ((f_totalLines (file p s) =? 0) && (0 <? pendingCopilotLines s)) eqn:Ef.
    + apply andb_prop in Ef as [_ Hp]. apply Z.ltb_lt in Hp.
      destruct (Z.ltb_spec n (Z.min (pendingCopilotLines s) n)); lia.
    + destruct (Z.ltb_spec n (f_copilotLines (file p s))); lia.
  - rewrite sumTotalLines_assign, totalOf_file. simpl. lia.
  - rewrite sumCopilotLines_assign, copilotOf_file. simpl.
    destruct ((f_totalLines (file p s) =? 0) && (0 <? pendingCopilotLines s)) eqn:Ef.
    + apply andb_prop in Ef as [H0 Hp]. apply Z.eqb_eq in H0. apply Z.ltb_lt in Hp.
      destruct (Z.ltb_spec n (Z.min (pendingCopilotLines s) n)); lia.
    + destruct (Z.ltb_spec n (f_copilotLines (file p s))); lia.
Qed.

Lemma Inv_updateFileStats (document : TextDocument) (s : State) :
  Inv (stats s) -> 0 <= lineCount document ->
  Inv (stats (updateFileStats host document s)).
Proof.
  intros HI Hn.
  destruct (shouldTrackFile host (fsPath document)) eqn:Ht.
  - destruct (Z.eq_dec (f_totalLines (file (fsPath document) s)) (lineCount document))
      as [He|Hne].
    + rewrite updateFileStats_same by assumption. now apply Inv_touch.
    + rewrite updateFileStats_changed by assumption.
      rewrite stats_saveStats. now apply Inv_updated.
  - now rewrite updateFileStats_untracked.
Qed.

Lemma Inv_committed (p : string) (k : Z) (s : State) :
  Inv (stats s) -> 0 < k ->
  f_copilotLines (file p s) + k <= f_totalLines (file p s) ->
  Inv (stats (committed host p k s)).
Proof.
  intros [Hf [Ht Hc]] Hk Hle.
  pose proof (file_record_ok p s Hf) as Hr. unfold record_ok in Hr.
  unfold committed. repeat split; simpl.
  - apply Forall_assign; [|exact Hf]. intros k0. unfold record_ok. simpl. lia.
  - rewrite sumTotalLines_assign, totalOf_file. simpl. lia.
  - rewrite sumCopilotLines_assign, copilotOf_file. simpl. lia.
Qed.

Lemma Inv_applyCopilotLines (p : string) (k : Z) (s : State) :
  Inv (stats s) -> Inv (stats (applyCopilotLines host p k s)).
Proof.
  intros HI.
  destruct (Z.le_gt_cases k 0) as [Hk|Hk].
  { rewrite applyCopilotLines_none by assumption. now apply Inv_touch. }
  destruct (Z.eq_dec (f_totalLines (file p s)) 0) as [H0|Hne].
  { rewrite applyCopilotLines_pending by assumption. now apply Inv_touch. }
  destruct (Z.le_gt_cases (f_copilotLines (file p s) + k) (f_totalLines (file p s)))
    as [Hle|Hgt].
  - rewrite applyCopilotLines_commit by assumption.
    rewrite stats_saveStats. now apply Inv_committed.
  - now rewrite applyCopilotLines_reject.
Qed.

Lemma Inv_onDidChangeTextDocument (document : TextDocument) (contentChanges : list string)
      (s : State) :
  Inv (stats s) -> 0 <= lineCount document ->
  Inv (stats (onDidChangeTextDocument host document contentChanges s)).
Proof.
  intros HI Hn. unfold onDidChangeTextDocument. cbv zeta.
  destruct (shouldTrackFile host (fsPath document)); [|exact HI]. simpl negb. cbv iota.
  pose proof (isCopilotChange_same_engine contentChanges s) as [Hs _].
  destruct (isCopilotChange contentChanges s) as [v s1]. simpl in Hs.
  apply Inv_updateFileStats; [|exact Hn].
  destruct v; [apply Inv_applyCopilotLines|]; now rewrite Hs.
Qed.

Lemma stats_saveStatsToFile (s : State) : stats (saveStatsToFile host s) = stats s.
Proof.
  unfold saveStatsToFile. destruct getRepositoryRoot as [[|c r]|]; try reflexivity.
  destruct (String.eqb _ _); [reflexivity|].
  destruct (writeSucceeds host); reflexivity.
Qed.

Lemma stats_clearStats (s : State) :
  stats (clearStats host s) = emptyStats (clock host (clockReads s)).
Proof. unfold clearStats. cbv zeta. now rewrite stats_saveStatsToFile. Qed.

Lemma Inv_clearStats (s : State) : Inv (stats (clearStats host s)).
Proof. rewrite stats_clearStats. repeat split. constructor. Qed.

Lemma Inv_onDidChangeConfiguration (affects : bool) (documents : list TextDocument)
      (s : State) :
  Inv (stats s) -> Forall (fun d => 0 <= lineCount d) documents ->
  Inv (stats (onDidChangeConfiguration host affects documents s)).
Proof.
  intros HI Hd. unfold onDidChangeConfiguration. destruct affects; [|exact HI].
  revert s HI. induction Hd as [|d ds Hd0 Hds IH]; intros s HI; simpl; [exact HI|].
  apply IH. now apply Inv_updateFileStats.
Qed.

End Preservation.

Lemma Inv_bounds (st : CopilotStats) : Inv st -> bounds_ok st.
Proof. intros [Hf Hs]. split; [exact Hf | now apply aggregate_from_files]. Qed.

(** ** Facts about the string built-ins *)

Lemma length_append (a b : string) :
  String.length (a ++ b) = (String.length a + String.length b)%nat.
Proof. induction a as [|c a IH]; simpl; [reflexivity | now rewrite IH]. Qed.

Lemma substring_whole (s : string) : substring 0 (String.length s) s = s.
Proof. induction s as [|c s IH]; simpl; [reflexivity | now rewrite IH]. Qed.

Lemma substring_append_right (a b : string) :
  substring (String.length a) (String.length b) (a ++ b) = b.
Proof. induction a as [|c a IH]; simpl; [apply substring_whole | exact IH]. Qed.

Lemma endsWith_append (a b : string) : JS.endsWith (a ++ b) b = true.
Proof.
  unfold JS.endsWith. rewrite length_append.
  replace (String.length a + String.length b - String.length b)%nat
    with (String.length a) by lia.
  rewrite substring_append_right, String.eqb_refl, andb_true_r.
  apply Nat.leb_le. lia.
Qed.

Lemma prefix_empty (s : string) : String.prefix EmptyString s = true.
Proof. destruct s; reflexivity. Qed.

Lemma lastChar_None (s : string) : lastChar s = None -> s = EmptyString.
Proof. destruct s as [|a s]; simpl; [reflexivity|]. destruct (lastChar s); discriminate. Qed.

Lemma endsWith_char (s : string) (c : ascii) :
  JS.endsWith s (String c EmptyString) =
  match lastChar s with
  | Some a => Ascii.eqb a c
  | None => false
  end.
Proof.
  unfold JS.endsWith. induction s as [|a s IH]; [reflexivity|].
  destruct s as [|b s'].
  - simpl. now destruct (Ascii.eqb a c).
  - change (lastChar (String a (String b s'))) with
      (match lastChar (String b s') with Some x => Some x | None => Some a end).
    destruct (lastChar (String b s')) eqn:E.
    + rewrite <- IH. simpl. now rewrite Nat.sub_0_r.
    + apply lastChar_None in E. discriminate.
Qed.

Lemma includes_char (s : string) (c : ascii) :
  JS.includes s (String c EmptyString) =
  existsb (Ascii.eqb c) (list_ascii_of_string s).
Proof.
  induction s as [|a s IH]; [reflexivity|].
  simpl. rewrite IH. destruct (ascii_dec c a) as [->|Hne].
  - now rewrite prefix_empty, Ascii.eqb_refl.
  - apply Ascii.eqb_neq in Hne. now rewrite Hne.
Qed.

Lemma isCompleteStatement_closer (text : string) :
  isCompleteStatement text = Spec.endsWithCloser text.
Proof.
  unfold isCompleteStatement, Spec.endsWithCloser. rewrite !endsWith_char.
  destruct (lastChar (JS.trim text)) as [a|]; [|reflexivity].
  simpl. rewrite orb_false_r, <- !orb_assoc. reflexivity.
Qed.

Lemma shape_heuristic (text : string) :
  JS.includes text (String JS.LF EmptyString) || isCompleteStatement text =
  Spec.shape text.
Proof.
  unfold Spec.shape, Spec.spansLines.
  now rewrite includes_char, isCompleteStatement_closer.
Qed.

(** ** The file filter *)

Lemma shouldTrackFile_node_modules (host : Host) (filePath : string) :
  underNodeModules filePath -> shouldTrackFile host filePath = false.
Proof.
  intros H. unfold shouldTrackFile.
  destruct (_ || _); [reflexivity|].
  destruct (_ || _); [reflexivity|].
  destruct H as [H|H]; rewrite H; [reflexivity | now rewrite orb_true_r].
Qed.

Lemma shouldTrackFile_snapshot (host : Host) (filePath : string) :
  isSnapshotFile filePath -> shouldTrackFile host filePath = false.
Proof.
  intros [root ->]. unfold shouldTrackFile.
  destruct (_ || _); [reflexivity|].
  destruct (_ || _); [reflexivity|].
  destruct (_ || _); [reflexivity|].
  unfold path_join, statsFileName.
  change (root ++ "/" ++ ".copilot-stats.json")
    with (root ++ String "/" ".copilot-stats.json").
  replace (root ++ String "/" ".copilot-stats.json")
    with ((root ++ "/") ++ ".copilot-stats.json").
  - now rewrite endsWith_append.
  - clear. induction root as [|c r IH]; simpl; [reflexivity | now rewrite IH].
Qed.

(** ** Further facts used by the theorems below *)

Lemma touch_existing (p : string) (r : FileStat) (s : State) :
  lookup p (fileStats (stats s)) = Some r -> touch p s = s.
Proof. intros H. unfold touch. now rewrite H. Qed.

Lemma lookup_touch (p : string) (s : State) :
  lookup p (fileStats (stats (touch p s))) = Some (file p s).
Proof.
  unfold touch, file. destruct (lookup p (fileStats (stats s))) eqn:E; [exact E|].
  simpl. apply lookup_assign_same.
Qed.

Lemma touch_touch (p : string) (s : State) : touch p (touch p s) = touch p s.
Proof. eapply touch_existing. apply lookup_touch. Qed.

Lemma lookup_updated (host : Host) (p : string) (n : Z) (s : State) :
  exists c, lookup p (fileStats (stats (updated host p n s))) = Some (mkFileStat n c).
Proof. unfold updated. cbv zeta. simpl. eexists. apply lookup_assign_same. Qed.



Lemma countNonEmptyLines_nonneg (text : string) : 0 <= countNonEmptyLines text.
Proof. unfold countNonEmptyLines. lia. Qed.

(** [saveStatsToFile] returns at its change detection when the stats
    serialise to what was saved last. *)
Lemma saveStatsToFile_unchanged (host : Host) (s : State) :
  lastSavedStats s = stringifyStats (stats s) -> saveStatsToFile host s = s.
Proof.
  intros H. unfold saveStatsToFile. destruct getRepositoryRoot as [[|c r]|]; try reflexivity.
  now rewrite H, String.eqb_refl.
Qed.

Lemma Inv_handle (host : Host) (e : Event) (s : State) :
  event_ok e -> Inv (stats s) -> Inv (stats (handle host e s)).
Proof.
  intros He HI. destruct e; simpl in *.
  - unfold provideInlineCompletionItems. now destruct automatic.
  - now apply Inv_onDidChangeTextDocument.
  - now apply Inv_updateFileStats.
  - now apply Inv_onDidChangeConfiguration.
  - apply Inv_clearStats.
  - unfold onSaveTimeout. now rewrite stats_saveStatsToFile.
Qed.

Lemma Inv_activate (host : Host) : Inv (stats (activate host None)).
Proof.
  unfold activate. cbv zeta. rewrite stats_saveStatsToFile. simpl.
  repeat split. constructor.
Qed.

(** Every state of a session that starts without stored stats keeps the
    sums and the bounds. *)
Lemma session_Inv (host : Host) (events : list (Host * Event)) :
  Forall (fun he => event_ok (snd he)) events ->
  Inv (stats (run events (activate host None))).
Proof.
  unfold run. generalize (Inv_activate host). generalize (activate host None).
  induction events as [|[h e] es IH]; intros s HI Hok; simpl; [exact HI|].
  inversion Hok as [|x l He Hes]; subst. apply IH; [|exact Hes].
  now apply Inv_handle.
Qed.

Lemma session_bounds (host : Host) (events : list (Host * Event)) :
  Forall (fun he => event_ok (snd he)) events ->
  bounds_ok (stats (run events (activate host None))) /\
  sums_ok (stats (run events (activate host None))).
Proof.
  intros H. pose proof (session_Inv host events H) as HI.
  split; [now apply Inv_bounds | exact (proj2 HI)].
Qed.

(** The pending branch of [updateFileStats], in full. *)
Lemma updateFileStats_first_content (host : Host) (document : TextDocument) (s : State) :
  shouldTrackFile host (fsPath document) = true ->
  f_totalLines (file (fsPath document) s) = 0 ->
  0 < lineCount document ->
  0 < pendingCopilotLines s ->
  let take := Z.min (pendingCopilotLines s) (lineCount document) in
  let s' := updateFileStats host document s in
  file (fsPath document) s' = mkFileStat (lineCount document) take /\
  copilotLines (stats s') = copilotLines (stats s) + take /\
  totalLines (stats s') = totalLines (stats s) + lineCount document /\
  pendingCopilotLines s' = 0.
Proof.
  intros Ht H0 Hn Hp. cbv zeta.
  rewrite updateFileStats_changed by (assumption || lia).
  rewrite file_saveStats, stats_saveStats, pending_saveStats.
  unfold updated, file. cbv zeta. simpl.
  rewrite lookup_assign_same. fold (file (fsPath document) s). rewrite H0.
  destruct (Z.ltb_spec 0 (pendingCopilotLines s)) as [_|]; [|lia]. simpl.
  destruct (Z.ltb_spec (lineCount document)
                       (Z.min (pendingCopilotLines s) (lineCount document))); [lia|].
  repeat split; lia.
Qed.

(** *** The sums on their own *)

Lemma empty_file (p : string) (s : State) :
  empty_files_ok (stats s) ->
  f_totalLines (file p s) = 0 -> f_copilotLines (file p s) = 0.
Proof.
  intros He. unfold file. destruct (lookup p (fileStats (stats s))) eqn:E.
  - exact (Forall_lookup (fun r => f_totalLines r = 0 -> f_copilotLines r = 0)
                         p f _ He E).
  - reflexivity.
Qed.

Lemma sums_ok_touch (p : string) (s : State) :
  sums_ok (stats s) -> sums_ok (stats (touch p s)).
Proof.
  intros [Ht Hc]. unfold touch.
  destruct (lookup p (fileStats (stats s))) eqn:E; [now split|].
  split; simpl.
  - rewrite sumTotalLines_assign, E. simpl. lia.
  - rewrite sumCopilotLines_assign, E. simpl. lia.
Qed.

(** The sums survive a new line count, whatever it is, once the record
    of the file has no AI lines when it has no lines. *)
Lemma sums_ok_updated (host : Host) (p : string) (n : Z) (s : State) :
  sums_ok (stats s) ->
  (f_totalLines (file p s) = 0 -> f_copilotLines (file p s) = 0) ->
  sums_ok (stats (updated host p n s)).
Proof.
  intros [Ht Hc] H0. unfold updated. cbv zeta. split; simpl.
  - rewrite sumTotalLines_assign, totalOf_file. simpl. lia.
  - rewrite sumCopilotLines_assign, copilotOf_file. simpl.
    destruct ((f_totalLines (file p s) =? 0) && (0 <? pendingCopilotLines s)) eqn:Ef.
    + apply andb_prop in Ef as [He _]. apply Z.eqb_eq in He. specialize (H0 He).
      destruct (Z.ltb_spec n (Z.min (pendingCopilotLines s) n)); lia.
    + destruct (Z.ltb_spec n (f_copilotLines (file p s))); lia.
Qed.

Lemma sums_ok_updateFileStats (host : Host) (document : TextDocument) (s : State) :
  sums_ok (stats s) ->
  (f_totalLines (file (fsPath document) s) = 0 ->
   f_copilotLines (file (fsPath document) s) = 0) ->
  sums_ok (stats (updateFileStats host document s)).
Proof.
  intros Hs H0.
  destruct (shouldTrackFile host (fsPath document)) eqn:Ht.
  - destruct (Z.eq_dec (f_totalLines (file (fsPath document) s)) (lineCount document))
      as [He|Hne].
    + rewrite updateFileStats_same by assumption. now apply sums_ok_touch.
    + rewrite updateFileStats_changed by assumption.
      rewrite stats_saveStats. now apply sums_ok_updated.
  - now rewrite updateFileStats_untracked.
Qed.

(** The attribution block keeps the sums, and leaves the record of the
    file without AI lines if it is without lines. *)
Lemma sums_ok_applyCopilotLines (host : Host) (p : string) (k : Z) (s : State) :
  sums_ok (stats s) ->
  (f_totalLines (file p s) = 0 -> f_copilotLines (file p s) = 0) ->
  let s' := applyCopilotLines host p k s in
  sums_ok (stats s') /\
  (f_totalLines (file p s') = 0 -> f_copilotLines (file p s') = 0).
Proof.
  intros Hs H0. cbv zeta.
  destruct (Z.le_gt_cases k 0) as [Hk|Hk].
  { rewrite applyCopilotLines_none by assumption. rewrite file_touch.
    split; [now apply sums_ok_touch | exact H0]. }
  destruct (Z.eq_dec (f_totalLines (file p s)) 0) as [He|Hne].
  { rewrite applyCopilotLines_pending by assumption. split.
    - simpl. now apply sums_ok_touch.
    - unfold file. simpl. fold (file p (touch p s)). now rewrite file_touch. }
  destruct (Z.le_gt_cases (f_copilotLines (file p s) + k) (f_totalLines (file p s)))
    as [Hle|Hgt].
  - rewrite applyCopilotLines_commit by assumption.
    rewrite file_saveStats, stats_saveStats.
    assert (Hf : file p (committed host p k s)
                 = mkFileStat (f_totalLines (file p s)) (f_copilotLines (file p s) + k)).
    { unfold committed, file at 1. simpl. now rewrite lookup_assign_same. }
    rewrite Hf. split; [|simpl; intros; contradiction].
    destruct Hs as [Ht Hc]. unfold committed. split; simpl.
    + rewrite sumTotalLines_assign, totalOf_file. simpl. lia.
    + rewrite sumCopilotLines_assign, copilotOf_file. simpl. lia.
  - rewrite applyCopilotLines_reject by assumption. now split.
Qed.

Lemma sums_ok_onDidChangeTextDocument (host : Host) (document : TextDocument)
      (contentChanges : list string) (s : State) :
  sums_ok (stats s) ->
  (f_totalLines (file (fsPath document) s) = 0 ->
   f_copilotLines (file (fsPath document) s) = 0) ->
  sums_ok (stats (onDidChangeTextDocument host document contentChanges s)).
Proof.
  intros Hs H0. unfold onDidChangeTextDocument. cbv zeta.
  destruct (shouldTrackFile host (fsPath document)); [|exact Hs]. simpl negb. cbv iota.
  pose proof (isCopilotChange_same_engine contentChanges s) as He.
  destruct (isCopilotChange contentChanges s) as [v s1]. simpl in He.
  pose proof (file_same_engine (fsPath document) s s1 He) as Hf.
  destruct He as [Hst _].
  assert (Hs1 : sums_ok (stats s1)) by now rewrite Hst.
  assert (H1 : f_totalLines (file (fsPath document) s1) = 0 ->
               f_copilotLines (file (fsPath document) s1) = 0) by now rewrite Hf.
  destruct v.
  - destruct (sums_ok_applyCopilotLines host (fsPath document)
                (newLinesOf contentChanges) s1 Hs1 H1) as [H2 H3].
    now apply sums_ok_updateFileStats.
  - now apply sums_ok_updateFileStats.
Qed.

(** Evaluation of a closed statement about the sample workspace. *)
Ltac evaluate := vm_compute; repeat split; try reflexivity; try discriminate; try easy.

(** * Properties of the specification, settled on the code *)

(** ** Bounds and sums *)

(** C1, as stated, does not hold: a state in which every record and the
    aggregate satisfy [0 <= copilotLines <= totalLines], but in which the
    aggregate is not the sum of the records, loses the aggregate bound
    when a change handler commits one AI line. *)
Lemma bounds_alone_not_kept :
  let s := Sample.holding 5 5 [(Sample.a_ts, mkFileStat 5 0)] 0 in
  bounds_ok (stats s) /\
  ~ bounds_ok (stats (onDidChangeTextDocument Sample.host (Sample.doc Sample.a_ts 5)
                                               ["x;"] s)).
Proof.
  cbv zeta. split.
  - split; [repeat constructor; simpl; lia | unfold aggregate_ok; simpl; lia].
  - intros [_ [_ H]]. vm_compute in H. now apply H.
Qed.

(** C1 (amended): starting from a state in which every per-file record
    and the aggregate satisfy [0 <= copilotLines <= totalLines] and the
    aggregate is the sum of the records, the change handler, the open
    handler ([updateFileStats]) and [clearStats] each end in a state
    with the same bounds, for a document whose line count is not
    negative. *)
Theorem bounds_kept (host : Host) (s : State) (document : TextDocument)
        (contentChanges : list string) :
  bounds_ok (stats s) -> sums_ok (stats s) -> 0 <= lineCount document ->
  bounds_ok (stats (onDidChangeTextDocument host document contentChanges s)) /\
  bounds_ok (stats (updateFileStats host document s)) /\
  bounds_ok (stats (clearStats host s)).
Proof.
  intros [Hf _] Hs Hn. assert (HI : Inv (stats s)) by (split; assumption).
  split; [|split]; apply Inv_bounds.
  - now apply Inv_onDidChangeTextDocument.
  - now apply Inv_updateFileStats.
  - apply Inv_clearStats.
Qed.

Lemma bounds_kept_witness :
  let s := Sample.holding 5 2 [(Sample.a_ts, mkFileStat 5 2)] 0 in
  let d := Sample.doc Sample.a_ts 3 in
  bounds_ok (stats (onDidChangeTextDocument Sample.host d ["x;"] s)) /\
  bounds_ok (stats (updateFileStats Sample.host d s)) /\
  bounds_ok (stats (clearStats Sample.host s)).
Proof.
  cbv zeta.
  apply (bounds_kept Sample.host
           (Sample.holding 5 2 [(Sample.a_ts, mkFileStat 5 2)] 0)
           (Sample.doc Sample.a_ts 3) ["x;"]).
  - split; [repeat constructor; simpl; lia | unfold aggregate_ok; simpl; lia].
  - split; reflexivity.
  - simpl. lia.
Defined.

(** C6, as stated, does not hold: a state in which both sums hold, but
    in which a record without lines carries AI lines, loses the sum of
    the AI counts when [updateFileStats] gives that record the pending
    lines. *)
Lemma sums_alone_not_kept :
  let s := Sample.holding 0 3 [(Sample.a_ts, mkFileStat 0 3)] 2 in
  sums_ok (stats s) /\
  ~ sums_ok (stats (updateFileStats Sample.host (Sample.doc Sample.a_ts 5) s)).
Proof.
  cbv zeta. split.
  - split; reflexivity.
  - intros [_ H]. vm_compute in H. discriminate H.
Qed.

(** C6 (amended): starting from a state in which the aggregate
    [totalLines] and [copilotLines] are the sums of the per-file ones and
    every per-file record with [totalLines] 0 has [copilotLines] 0, the
    change handler, the open handler ([updateFileStats]) and
    [clearStats] each end in a state in which both sums hold, whatever
    the document and its line count. *)
Theorem sums_kept (host : Host) (s : State) (document : TextDocument)
        (contentChanges : list string) :
  sums_ok (stats s) -> empty_files_ok (stats s) ->
  sums_ok (stats (onDidChangeTextDocument host document contentChanges s)) /\
  sums_ok (stats (updateFileStats host document s)) /\
  sums_ok (stats (clearStats host s)).
Proof.
  intros Hs He. pose proof (empty_file (fsPath document) s He) as H0.
  split; [|split].
  - now apply sums_ok_onDidChangeTextDocument.
  - now apply sums_ok_updateFileStats.
  - rewrite stats_clearStats. split; reflexivity.
Qed.

Lemma sums_kept_witness :
  let s := Sample.holding 3 5 [(Sample.a_ts, mkFileStat 3 5); (Sample.b_ts, mkFileStat 0 0)]
                          2 in
  let d := Sample.doc Sample.b_ts 4 in
  sums_ok (stats (onDidChangeTextDocument Sample.host d ["x;"] s)) /\
  sums_ok (stats (updateFileStats Sample.host d s)) /\
  sums_ok (stats (clearStats Sample.host s)).
Proof.
  cbv zeta.
  apply (sums_kept Sample.host
           (Sample.holding 3 5
              [(Sample.a_ts, mkFileStat 3 5); (Sample.b_ts, mkFileStat 0 0)] 2)
           (Sample.doc Sample.b_ts 4) ["x;"]).
  - split; reflexivity.
  - apply Forall_cons; [simpl; lia|]. apply Forall_cons; [simpl; lia|]. apply Forall_nil.
Defined.

(** The clamp of the specification: ten lines of which eight are AI
    lines, shrunk to five. *)
Example clamp_on_shrink :
  let s := Sample.holding 10 8 [(Sample.a_ts, mkFileStat 10 8)] 0 in
  let s' := updateFileStats Sample.host (Sample.doc Sample.a_ts 5) s in
  file Sample.a_ts s' = mkFileStat 5 5 /\ copilotLines (stats s') = 5.
Proof. evaluate. Qed.

(** ** Clearing *)

(** C2 (the code departs from it): [clearStats] resets the stats and
    tells the quick-reload store, and that is all.  It stores the
    serialised empty stats in [lastSavedStats] before it calls
    [saveStatsToFile], whose change detection then always returns early:
    whatever the host and the state, no file is written, the pending
    timer is left as it is, and [pendingCopilotLines] keeps its value. *)
Theorem clearStats_writes_no_snapshot (host : Host) (s : State) :
  let s' := clearStats host s in
  stats s' = emptyStats (clock host (clockReads s)) /\
  trace s' = (trace s ++ [GlobalStateUpdate None])%list /\
  existsb isWrite (trace s') = existsb isWrite (trace s) /\
  saveTimeout s' = saveTimeout s /\
  pendingCopilotLines s' = pendingCopilotLines s.
Proof.
  cbv zeta. unfold clearStats. cbv zeta.
  rewrite saveStatsToFile_unchanged by reflexivity.
  simpl. repeat split.
  rewrite existsb_app. simpl. now rewrite orb_false_r.
Qed.

(** The same at one input: stats that were written to the snapshot file
    stay in it after the clear command, also when the debounce timer set
    earlier fires. *)
Example clearStats_leaves_stale_snapshot :
  let h := Sample.host in
  let s1 := onDidChangeTextDocument h (Sample.doc Sample.a_ts 5) ["foo();"] Sample.fresh in
  let s2 := onSaveTimeout h s1 in
  let s3 := onSaveTimeout h (clearStatsCommand h s2) in
  copilotLines (stats s2) = 1 /\
  filter isWrite (trace s2) =
    [WriteFileSync "/repo/.copilot-stats.json"
       (mkRepositoryStats (stats s2) "repo" "2024-01-01T00:00:00.000Z")] /\
  copilotLines (stats s3) = 0 /\
  filter isWrite (trace s3) = filter isWrite (trace s2).
Proof. evaluate. Qed.

(** ** Idempotence of [updateFileStats] *)

(** C7: a second call of [updateFileStats] for the same document, with
    the same line count, returns the state the first call left: no
    counter, no entry of the map, no timestamp changes, and nothing is
    added to the trace of host calls (no quick-reload write, no timer
    cancelled or set). *)
Theorem updateFileStats_idempotent (host : Host) (document : TextDocument) (s : State) :
  updateFileStats host document (updateFileStats host document s) =
  updateFileStats host document s.
Proof.
  destruct (shouldTrackFile host (fsPath document)) eqn:Ht.
  - destruct (Z.eq_dec (f_totalLines (file (fsPath document) s)) (lineCount document))
      as [He|Hne].
    + rewrite (updateFileStats_same host document s Ht He).
      rewrite updateFileStats_same; [apply touch_touch | exact Ht |].
      now rewrite file_touch.
    + rewrite (updateFileStats_changed host document s Ht Hne).
      destruct (lookup_updated host (fsPath document) (lineCount document) s) as [c Hc].
      rewrite updateFileStats_same; [| exact Ht |].
      * eapply touch_existing. rewrite stats_saveStats. exact Hc.
      * rewrite file_saveStats. unfold file. now rewrite Hc.
  - now rewrite !updateFileStats_untracked.
Qed.

(** ** Pending attribution *)

(** C3, as stated, does not hold: with ten pending lines and a file that
    goes from no line to four, [updateFileStats] gives the file four AI
    lines and leaves no pending line, where the claim leaves six. *)
Lemma pending_residual_dropped :
  let s := Sample.holding 0 0 [] 10 in
  let d := Sample.doc Sample.a_ts 4 in
  let s' := updateFileStats Sample.host d s in
  shouldTrackFile Sample.host (fsPath d) = true /\
  f_totalLines (file (fsPath d) s) = 0 /\
  0 < lineCount d /\ 0 < pendingCopilotLines s /\
  pendingCopilotLines s' <>
  pendingCopilotLines s - Z.min (pendingCopilotLines s) (lineCount d).
Proof. evaluate. Qed.

(** C3 (amended): when [updateFileStats] runs on a tracked file whose
    stored total goes from 0 to a positive line count while lines are
    pending, with [take] the minimum of the pending lines and the new
    total, the file's record becomes the new total with [take] AI lines,
    the aggregate AI count grows by [take], the aggregate total by the
    new total, and the pending lines are reset to 0, whatever exceeded
    the new total is dropped. *)
Theorem first_content_attribution (host : Host) (document : TextDocument) (s : State) :
  shouldTrackFile host (fsPath document) = true ->
  f_totalLines (file (fsPath document) s) = 0 ->
  0 < lineCount document ->
  0 < pendingCopilotLines s ->
  let take := Z.min (pendingCopilotLines s) (lineCount document) in
  let s' := updateFileStats host document s in
  file (fsPath document) s' = mkFileStat (lineCount document) take /\
  copilotLines (stats s') = copilotLines (stats s) + take /\
  totalLines (stats s') = totalLines (stats s) + lineCount document /\
  pendingCopilotLines s' = 0.
Proof. exact (updateFileStats_first_content host document s). Qed.

Lemma first_content_attribution_witness :
  let s := Sample.holding 0 0 [] 10 in
  let d := Sample.doc Sample.a_ts 4 in
  let s' := updateFileStats Sample.host d s in
  file Sample.a_ts s' = mkFileStat 4 4 /\
  copilotLines (stats s') = 0 + 4 /\
  totalLines (stats s') = 0 + 4 /\
  pendingCopilotLines s' = 0.
Proof.
  cbv zeta.
  apply (first_content_attribution Sample.host (Sample.doc Sample.a_ts 4)
           (Sample.holding 0 0 [] 10)).
  - reflexivity.
  - reflexivity.
  - simpl. lia.
  - simpl. lia.
Defined.

(** The two pending scenarios of the specification, through the
    attribution block and [updateFileStats]. *)
Example pending_three_of_five :
  let s1 := applyCopilotLines Sample.host Sample.a_ts 3 Sample.fresh in
  let s2 := updateFileStats Sample.host (Sample.doc Sample.a_ts 5) s1 in
  pendingCopilotLines s1 = 3 /\
  file Sample.a_ts s2 = mkFileStat 5 3 /\ pendingCopilotLines s2 = 0.
Proof. evaluate. Qed.

Example pending_capped_at_total :
  let s1 := applyCopilotLines Sample.host Sample.a_ts 10 Sample.fresh in
  let s2 := updateFileStats Sample.host (Sample.doc Sample.a_ts 4) s1 in
  file Sample.a_ts s2 = mkFileStat 4 4 /\ pendingCopilotLines s2 = 0.
Proof. evaluate. Qed.

(** C10: the pending lines are one counter of the session.  Lines
    attributed to a file [a] that has no line yet are added to it, [a]
    itself keeps its record, and the next [updateFileStats] that takes a
    tracked file from no line to [n > 0] lines consumes the counter,
    also when that file is another file [b]: [b] receives the minimum of
    the pending lines and [n] as its AI lines. *)
Theorem pending_goes_to_next_new_file (host : Host) (a b : string) (k n : Z) (s : State) :
  shouldTrackFile host b = true ->
  a <> b ->
  f_totalLines (file a s) = 0 ->
  f_totalLines (file b s) = 0 ->
  0 <= pendingCopilotLines s ->
  0 < k -> 0 < n ->
  let s1 := applyCopilotLines host a k s in
  let s2 := updateFileStats host (mkTextDocument b n) s1 in
  pendingCopilotLines s1 = pendingCopilotLines s + k /\
  file a s1 = file a s /\
  file b s2 = mkFileStat n (Z.min (pendingCopilotLines s + k) n) /\
  file a s2 = file a s /\
  pendingCopilotLines s2 = 0.
Proof.
  intros Ht Hab Ha Hb Hp Hk Hn. cbv zeta.
  rewrite applyCopilotLines_pending by assumption.
  set (s1 := with_pendingCopilotLines (pendingCopilotLines s + k) (touch a s)).
  assert (Hfa : file a s1 = file a s) by (unfold s1; apply file_touch).
  assert (Hfb : file b s1 = file b s).
  { unfold s1, file. simpl. now rewrite stats_touch_lookup. }
  assert (Hp1 : pendingCopilotLines s1 = pendingCopilotLines s + k) by reflexivity.
  split; [exact Hp1|]. split; [exact Hfa|].
  pose proof (updateFileStats_first_content host (mkTextDocument b n) s1) as H.
  simpl fsPath in H. simpl lineCount in H.
  rewrite Hfb, Hp1 in H.
  destruct (H Ht Hb Hn ltac:(lia)) as (H1 & _ & _ & H4).
  split; [exact H1|]. split; [|exact H4].
  rewrite updateFileStats_changed by (simpl; rewrite ?Hfb; (assumption || lia)).
  rewrite file_saveStats. simpl fsPath. simpl lineCount.
  unfold updated, file at 1. cbv zeta. simpl.
  rewrite lookup_assign_other by congruence.
  fold (file a s1). exact Hfa.
Qed.

Lemma pending_goes_to_next_new_file_witness :
  let s1 := applyCopilotLines Sample.host Sample.a_ts 3 Sample.fresh in
  let s2 := updateFileStats Sample.host (mkTextDocument Sample.b_ts 2) s1 in
  pendingCopilotLines s1 = 0 + 3 /\
  file Sample.a_ts s1 = file Sample.a_ts Sample.fresh /\
  file Sample.b_ts s2 = mkFileStat 2 (Z.min (0 + 3) 2) /\
  file Sample.a_ts s2 = file Sample.a_ts Sample.fresh /\
  pendingCopilotLines s2 = 0.
Proof.
  cbv zeta.
  apply (pending_goes_to_next_new_file Sample.host Sample.a_ts Sample.b_ts 3 2 Sample.fresh).
  - reflexivity.
  - discriminate.
  - reflexivity.
  - reflexivity.
  - simpl. lia.
  - lia.
  - lia.
Defined.

(** The same through the handlers: an accepted suggestion in [a.ts]
    while the editor reports no line for it, then [b.ts] opened with two
    lines. *)
Example pending_crosses_files :
  let h := Sample.host in
  let s1 := onDidChangeTextDocument h (Sample.doc Sample.a_ts 0) ["x();"; "y();"; "z();"]
                                    Sample.fresh in
  let s2 := onDidOpenTextDocument h (Sample.doc Sample.b_ts 2) s1 in
  pendingCopilotLines s1 = 3 /\
  fileStats (stats s2) = [(Sample.a_ts, mkFileStat 0 0); (Sample.b_ts, mkFileStat 2 2)] /\
  pendingCopilotLines s2 = 0.
Proof. evaluate. Qed.

(** ** Overflow rejection *)

(** C4: for a file whose stored total is positive, an attribution whose
    candidate [copilotLines + count] exceeds the stored total returns the
    state it was given: per-file and aggregate counters, pending lines,
    [lastUpdated], the trace of host calls and the timer are all as
    before. *)
Theorem overflow_rejected (host : Host) (p : string) (count : Z) (s : State) :
  0 < f_totalLines (file p s) ->
  f_totalLines (file p s) < f_copilotLines (file p s) + count ->
  applyCopilotLines host p count s = s.
Proof. intros Hpos Hgt. apply applyCopilotLines_reject; [lia | exact Hgt]. Qed.

(** The instance of the specification: five lines, all of them AI lines,
    and two more offered. *)
Lemma overflow_rejected_witness :
  let s := Sample.holding 5 5 [("f", mkFileStat 5 5)] 0 in
  applyCopilotLines Sample.host "f" 2 s = s.
Proof.
  cbv zeta.
  apply (overflow_rejected Sample.host "f" 2 (Sample.holding 5 5 [("f", mkFileStat 5 5)] 0)).
  - simpl. lia.
  - simpl. lia.
Defined.

(** Through the change handler the classifier may still consume its
    suggestion variables; everything else stays when the line count of
    the document is the stored total. *)
Lemma change_event_overflow (host : Host) (document : TextDocument)
      (contentChanges : list string) (s : State) :
  0 < f_totalLines (file (fsPath document) s) ->
  f_totalLines (file (fsPath document) s) <
    f_copilotLines (file (fsPath document) s) + newLinesOf contentChanges ->
  lineCount document = f_totalLines (file (fsPath document) s) ->
  same_engine s (onDidChangeTextDocument host document contentChanges s).
Proof.
  intros Hpos Hgt Hn. unfold onDidChangeTextDocument. cbv zeta.
  destruct (shouldTrackFile host (fsPath document)) eqn:Ht; [|apply same_engine_refl].
  simpl negb. cbv iota.
  pose proof (isCopilotChange_same_engine contentChanges s) as Hs.
  destruct (isCopilotChange contentChanges s) as [v s1]. simpl in Hs.
  pose proof (file_same_engine (fsPath document) s s1 Hs) as Hf.
  assert (Hne : f_totalLines (file (fsPath document) s1) <> 0) by (rewrite Hf; lia).
  assert (Hsame : (if v then applyCopilotLines host (fsPath document)
                                  (newLinesOf contentChanges) s1 else s1) = s1).
  { destruct v; [|reflexivity]. apply applyCopilotLines_reject; [exact Hne | rewrite Hf; exact Hgt]. }
  rewrite Hsame, updateFileStats_same; [| exact Ht | now rewrite Hf].
  now rewrite (touch_nonzero _ _ Hne).
Qed.

(** ** The classifier *)

(** C5, as stated, does not hold: after a suggestion was offered on an
    empty line the offered text is the empty string, which every
    inserted text contains, yet the callback does not take the second
    step: the text [a] is classified as manual and the offered text
    stays. *)
Lemma empty_suggestion_not_matched :
  let s := with_lastCopilotSuggestion (Some EmptyString) Sample.fresh in
  isAcceptingSuggestion s = false /\
  lastCopilotSuggestion s = Some EmptyString /\
  JS.includes "a" EmptyString = true /\
  Spec.classify "a" s = (true, with_lastCopilotSuggestion None s) /\
  classifyChange "a" s = (false, s) /\
  classifyChange "a" s <> Spec.classify "a" s.
Proof. evaluate. Qed.

(** How the session gets there: a suggestion offered on an empty line,
    accepted by a first edit, and a second, typed edit. *)
Example empty_suggestion_reachable :
  let h := Sample.host in
  let s1 := provideInlineCompletionItems true EmptyString Sample.fresh in
  let s2 := onDidChangeTextDocument h (Sample.doc Sample.a_ts 1) ["foo"] s1 in
  isAcceptingSuggestion s2 = false /\
  lastCopilotSuggestion s2 = Some EmptyString /\
  classifyChange "a" s2 = (false, s2).
Proof. evaluate. Qed.

(** C5 (amended): the callback decides on one inserted text in this
    order: (1) if [isAcceptingSuggestion] is true, AI, and the flag is
    cleared; (2) else if [lastCopilotSuggestion] is set to a non-empty
    text and the inserted text contains it, AI, and it is cleared;
    (3) else AI exactly when the inserted text contains a line break or
    its trimmed form ends with one of the six closers; otherwise manual,
    the suggestion variables left as they are. *)
Theorem classifyChange_decision (newText : string) (s : State) :
  classifyChange newText s = Spec.classifyNonEmpty newText s.
Proof.
  unfold classifyChange, Spec.classifyNonEmpty.
  destruct (isAcceptingSuggestion s); [reflexivity|].
  cbv zeta. rewrite shape_heuristic.
  destruct (lastCopilotSuggestion s) as [[|c offered]|]; reflexivity.
Qed.

(** ** The file filter at the entry points *)

(** C8: for a path that [shouldTrackFile] rejects, and so for every path
    under a [node_modules] directory and for the snapshot file of any
    workspace root, whatever extensions are configured, the change
    handler and the open handler return the state they were given: no
    record is created, no counter or suggestion variable changes, and
    nothing is added to the trace of host calls. *)
Theorem excluded_paths_untouched (host : Host) (document : TextDocument)
        (contentChanges : list string) (s : State) :
  shouldTrackFile host (fsPath document) = false \/
  underNodeModules (fsPath document) \/
  isSnapshotFile (fsPath document) ->
  onDidChangeTextDocument host document contentChanges s = s /\
  onDidOpenTextDocument host document s = s.
Proof.
  intros H.
  assert (Ht : shouldTrackFile host (fsPath document) = false).
  { destruct H as [H|[H|H]];
      [exact H | now apply shouldTrackFile_node_modules
       | now apply shouldTrackFile_snapshot]. }
  split.
  - unfold onDidChangeTextDocument. now rewrite Ht.
  - unfold onDidOpenTextDocument. now apply updateFileStats_untracked.
Qed.

Lemma excluded_paths_untouched_witness :
  let d := Sample.doc (path_join "/repo" statsFileName) 12 in
  onDidChangeTextDocument Sample.host d ["{}"] Sample.fresh = Sample.fresh /\
  onDidOpenTextDocument Sample.host d Sample.fresh = Sample.fresh.
Proof.
  cbv zeta.
  apply (excluded_paths_untouched Sample.host
           (Sample.doc (path_join "/repo" statsFileName) 12) ["{}"] Sample.fresh).
  right. right. exists "/repo". reflexivity.
Defined.

Example node_modules_excluded :
  let d := Sample.doc "/repo/node_modules/left-pad/index.js" 40 in
  underNodeModules (fsPath d) /\
  onDidChangeTextDocument Sample.host d ["module.exports = leftPad;"] Sample.fresh
  = Sample.fresh.
Proof. cbv zeta. split; [left |]; reflexivity. Qed.

(** ** One verdict for the whole event *)

(** In that event the text [bar] is manual on its own, and both lines
    are attributed. *)
Example manual_span_counted :
  let d := Sample.doc Sample.a_ts 5 in
  let s := Sample.holding 5 0 [(Sample.a_ts, mkFileStat 5 0)] 0 in
  fst (classifyChange "bar" s) = false /\
  fst (isCopilotChange ["bar"] s) = false /\
  countNonEmptyLines "foo();" = 1 /\
  file Sample.a_ts (onDidChangeTextDocument Sample.host d ["foo();"; "bar"] s)
  = mkFileStat 5 2.
Proof. evaluate. Qed.

(** * Further properties of the code *)

(** ** Counting non-empty lines *)

Lemma split_nonempty (sep : ascii) (s : string) : JS.split sep s <> [].
Proof.
  destruct s as [|c s]; simpl; [discriminate|].
  destruct (Ascii.eqb c sep); [discriminate|].
  destruct (JS.split sep s); discriminate.
Qed.

Lemma split_length (s : string) :
  List.length (JS.split JS.LF s) = S (countLF s).
Proof.
  induction s as [|c s IH]; [reflexivity|].
  simpl. destruct (Ascii.eqb c JS.LF); simpl.
  - now rewrite IH.
  - destruct (JS.split JS.LF s) eqn:E; [now apply split_nonempty in E|].
    simpl in *. exact IH.
Qed.

Lemma split_append_LF (a b : string) :
  JS.split JS.LF (a ++ String JS.LF b) = (JS.split JS.LF a ++ JS.split JS.LF b)%list.
Proof.
  induction a as [|c a IH]; [reflexivity|].
  simpl. destruct (Ascii.eqb c JS.LF).
  - now rewrite IH.
  - rewrite IH. destruct (JS.split JS.LF a) eqn:E; [now apply split_nonempty in E|].
    reflexivity.
Qed.

Lemma trimStart_cases (s : string) :
  (allWhiteSpace s = true /\ JS.trimStart s = EmptyString) \/
  (allWhiteSpace s = false /\
   exists c r, JS.trimStart s = String c r /\ JS.isWhiteSpace c = false).
Proof.
  induction s as [|c s IH]; [now left|].
  simpl. destruct (JS.isWhiteSpace c) eqn:Ec; simpl.
  - exact IH.
  - right. split; [reflexivity|]. now exists c, s.
Qed.

Lemma trimEnd_keeps_head (c : ascii) (r : string) :
  JS.isWhiteSpace c = false -> JS.trimEnd (String c r) <> EmptyString.
Proof.
  intros Hc. simpl. destruct (JS.trimEnd r); [rewrite Hc|]; discriminate.
Qed.

(** A text trims to the empty string exactly when it is all white
    space. *)
Lemma trim_empty (s : string) :
  (0 <? String.length (JS.trim s))%nat = negb (allWhiteSpace s).
Proof.
  unfold JS.trim. destruct (trimStart_cases s) as [[Ha Ht]|[Ha (c & r & Ht & Hc)]];
    rewrite Ha, Ht; [reflexivity|].
  pose proof (trimEnd_keeps_head c r Hc) as Hne.
  destruct (JS.trimEnd (String c r)); [contradiction | reflexivity].
Qed.

Lemma LF_isWhiteSpace (c : ascii) : Ascii.eqb c JS.LF = true -> JS.isWhiteSpace c = true.
Proof. intros H. apply Ascii.eqb_eq in H. now subst c. Qed.

Lemma allWhiteSpace_lines (s : string) :
  forallb allWhiteSpace (JS.split JS.LF s) = allWhiteSpace s.
Proof.
  induction s as [|c s IH]; [reflexivity|].
  simpl. destruct (Ascii.eqb c JS.LF) eqn:Ec.
  - rewrite (LF_isWhiteSpace c Ec). simpl. exact IH.
  - destruct (JS.split JS.LF s) eqn:E; [now apply split_nonempty in E|].
    simpl in *. now rewrite <- IH, andb_assoc.
Qed.

Lemma filter_length_zero (A : Type) (f : A -> bool) (l : list A) :
  List.length (filter f l) = O <-> forallb (fun x => negb (f x)) l = true.
Proof.
  induction l as [|x l IH]; simpl; [tauto|].
  destruct (f x); simpl; [split; discriminate | exact IH].
Qed.

(** X1: [countNonEmptyLines] is never negative and never more than the
    number of line feeds of the text plus one. *)
Theorem countNonEmptyLines_bounds (text : string) :
  0 <= countNonEmptyLines text <= Z.of_nat (countLF text) + 1.
Proof.
  unfold countNonEmptyLines.
  pose proof (filter_length_le
                (fun line => (0 <? String.length (JS.trim line))%nat)
                (JS.split JS.LF text)) as H.
  rewrite split_length in H. lia.
Qed.

(** X2: [countNonEmptyLines] is 0 exactly for the texts made of white
    space and line terminators only, the empty text among them. *)
Theorem countNonEmptyLines_zero (text : string) :
  countNonEmptyLines text = 0 <-> allWhiteSpace text = true.
Proof.
  unfold countNonEmptyLines. rewrite <- allWhiteSpace_lines.
  rewrite <- Nat2Z.inj_0, Nat2Z.inj_iff, filter_length_zero.
  assert (E : forall l, forallb (fun x => negb (0 <? String.length (JS.trim x))%nat) l
                        = forallb allWhiteSpace l).
  { induction l as [|x l IH]; simpl; [reflexivity|].
    now rewrite trim_empty, negb_involutive, IH. }
  now rewrite E.
Qed.

(** X3: the count is additive over a line feed: the non-empty lines of
    [a], a line feed and [b] are those of [a] and those of [b]. *)
Theorem countNonEmptyLines_append (a b : string) :
  countNonEmptyLines (a ++ String JS.LF b) =
  countNonEmptyLines a + countNonEmptyLines b.
Proof.
  unfold countNonEmptyLines.
  rewrite split_append_LF, filter_app, length_app. lia.
Qed.

Lemma nonEmptyLinesOfAll_nonneg (contentChanges : list string) :
  0 <= nonEmptyLinesOfAll contentChanges.
Proof.
  induction contentChanges as [|c cs IH]; simpl; [lia|].
  pose proof (countNonEmptyLines_nonneg c). lia.
Qed.

(** ** The extension test of the file filter *)

Lemma substring_split (s : string) (n m : nat) :
  (n + m = String.length s)%nat -> s = substring 0 n s ++ substring n m s.
Proof.
  revert n m. induction s as [|c s IH]; intros n m H; simpl in H.
  - assert (n = O) by lia. assert (m = O) by lia. subst. reflexivity.
  - destruct n as [|n]; simpl.
    + destruct m as [|m]; [discriminate|]. simpl.
      injection H as H. now rewrite H, substring_whole.
    + f_equal. apply IH. lia.
Qed.

Lemma endsWith_suffixOf (s t : string) : JS.endsWith s t = true -> suffixOf t s.
Proof.
  unfold JS.endsWith. intros H. apply andb_prop in H as [Hl He].
  apply Nat.leb_le in Hl. apply String.eqb_eq in He.
  exists (substring 0 (String.length s - String.length t) s).
  pose proof (substring_split s (String.length s - String.length t) (String.length t))
    as Hs.
  rewrite He in Hs. apply Hs. lia.
Qed.

Lemma lowerChar_idempotent (c : ascii) : JS.lowerChar (JS.lowerChar c) = JS.lowerChar c.
Proof. destruct c as [[] [] [] [] [] [] [] []]; reflexivity. Qed.

Lemma toLowerCase_idempotent (s : string) :
  JS.toLowerCase (JS.toLowerCase s) = JS.toLowerCase s.
Proof.
  induction s as [|c s IH]; simpl; [reflexivity|].
  now rewrite lowerChar_idempotent, IH.
Qed.

Lemma toLowerCase_append (a b : string) :
  JS.toLowerCase (a ++ b) = JS.toLowerCase a ++ JS.toLowerCase b.
Proof. induction a as [|c a IH]; simpl; [reflexivity | now rewrite IH]. Qed.

Lemma toLowerCase_length (s : string) :
  String.length (JS.toLowerCase s) = String.length s.
Proof. induction s as [|c s IH]; simpl; [reflexivity | now rewrite IH]. Qed.

Lemma append_same_length (a a' b b' : string) :
  String.length a = String.length a' -> a ++ b = a' ++ b' -> b = b'.
Proof.
  revert a'. induction a as [|c a IH]; intros [|c' a'] Hl H; simpl in *;
    try discriminate; [exact H|].
  injection H as _ H. injection Hl as Hl. eauto.
Qed.

(** What a lower-cased text ends with is in lower case. *)
Lemma suffix_of_lowered (t s : string) : suffixOf t (JS.toLowerCase s) -> isLowerCase t.
Proof.
  intros [pre H]. unfold isLowerCase.
  pose proof (toLowerCase_idempotent s) as Hi.
  rewrite H, toLowerCase_append in Hi.
  eapply append_same_length; [|exact Hi]. apply toLowerCase_length.
Qed.

(** A tracked path ends, lower-cased, with a configured extension that
    is in lower case. *)
Lemma tracked_lower_case (host : Host) (filePath : string) :
  shouldTrackFile host filePath = true ->
  exists ext, In ext (trackedExtensions host) /\
              suffixOf ext (JS.toLowerCase filePath) /\ isLowerCase ext.
Proof.
  unfold shouldTrackFile. intros H.
  destruct (_ || _); [discriminate|].
  destruct (_ || _); [discriminate|].
  destruct (_ || _); [discriminate|].
  destruct (JS.endsWith filePath ".copilot-stats.json"); [discriminate|].
  apply existsb_exists in H as (ext & Hin & He).
  apply endsWith_suffixOf in He.
  exists ext. repeat split; [exact Hin | exact He | exact (suffix_of_lowered _ _ He)].
Qed.

(** X4: a tracked path ends, once lower-cased, with one of the
    configured extensions, and that extension is written in lower case:
    only the path is lower-cased, so a configured extension with an
    upper-case letter matches no file. *)
Theorem tracked_by_lower_case_extension (host : Host) (filePath : string) :
  shouldTrackFile host filePath = true ->
  exists ext, In ext (trackedExtensions host) /\
              suffixOf ext (JS.toLowerCase filePath) /\ isLowerCase ext.
Proof. exact (tracked_lower_case host filePath). Qed.

Lemma tracked_by_lower_case_extension_witness :
  exists ext, In ext (trackedExtensions Sample.host) /\
              suffixOf ext (JS.toLowerCase "/repo/README.MD") /\ isLowerCase ext.
Proof.
  apply (tracked_by_lower_case_extension Sample.host "/repo/README.MD").
  reflexivity.
Defined.

(** X5: with only extensions that are not in lower case configured, no
    file is tracked, so neither handler ever changes the state. *)
Theorem upper_case_extensions_track_nothing (host : Host) (document : TextDocument)
        (contentChanges : list string) (s : State) :
  Forall (fun ext => ~ isLowerCase ext) (trackedExtensions host) ->
  shouldTrackFile host (fsPath document) = false /\
  onDidChangeTextDocument host document contentChanges s = s /\
  onDidOpenTextDocument host document s = s.
Proof.
  intros Hall.
  assert (Ht : shouldTrackFile host (fsPath document) = false).
  { destruct (shouldTrackFile host (fsPath document)) eqn:E; [|reflexivity].
    destruct (tracked_lower_case host _ E) as (ext & Hin & _ & Hl).
    rewrite Forall_forall in Hall. now destruct (Hall ext Hin). }
  split; [exact Ht|]. split.
  - unfold onDidChangeTextDocument. now rewrite Ht.
  - unfold onDidOpenTextDocument. now apply updateFileStats_untracked.
Qed.

Lemma upper_case_extensions_track_nothing_witness :
  let h := mkHost [".TS"; ".Py"] (Some "/repo") true (fun _ => EmptyString)
                  path_join (fun _ => "repo") in
  let d := Sample.doc "/repo/src/a.ts" 3 in
  shouldTrackFile h (fsPath d) = false /\
  onDidChangeTextDocument h d ["x;"] Sample.fresh = Sample.fresh /\
  onDidOpenTextDocument h d Sample.fresh = Sample.fresh.
Proof.
  cbv zeta.
  apply (upper_case_extensions_track_nothing
           (mkHost [".TS"; ".Py"] (Some "/repo") true (fun _ => EmptyString)
                  path_join (fun _ => "repo"))
           (Sample.doc "/repo/src/a.ts" 3) ["x;"] Sample.fresh).
  repeat constructor; unfold isLowerCase; simpl; discriminate.
Defined.

(** ** Timers, snapshot writes and the quick-reload store *)

Lemma liveTimers_app (tr l : list Effect) :
  liveTimers (tr ++ l) = fold_left timerStep l (liveTimers tr).
Proof. unfold liveTimers. apply fold_left_app. Qed.

Lemma quickReload_app (tr l : list Effect) :
  quickReload (tr ++ l) = fold_left storeStep l (quickReload tr).
Proof. unfold quickReload. apply fold_left_app. Qed.

Lemma writes_app (tr l : list Effect) : writes (tr ++ l) = (writes tr ++ writes l)%list.
Proof. unfold writes. apply filter_app. Qed.

Lemma trace_saveStats (s : State) :
  trace (saveStats s) =
  (trace s ++ GlobalStateUpdate (Some (stats s))
     :: match saveTimeout s with Some t => [ClearTimeout t] | None => [] end
     ++ [SetTimeout (nextTimer s) 5000])%list.
Proof.
  unfold saveStats, scheduleSave. simpl. destruct (saveTimeout s); simpl.
  - now rewrite <- !app_assoc.
  - now rewrite <- !app_assoc.
Qed.

Lemma saveTimeout_saveStats (s : State) : saveTimeout (saveStats s) = Some (nextTimer s).
Proof. unfold saveStats, scheduleSave. simpl. destruct (saveTimeout s); reflexivity. Qed.

Lemma timers_ok_saveStats (s : State) : timers_ok s -> timers_ok (saveStats s).
Proof.
  unfold timers_ok. intros H.
  rewrite trace_saveStats, saveTimeout_saveStats, liveTimers_app, H.
  destruct (saveTimeout s) as [t|]; simpl; [now rewrite Nat.eqb_refl | reflexivity].
Qed.

Lemma timers_ok_emit (e : Effect) (s : State) :
  isTimer e = false -> timers_ok s -> timers_ok (emit e s).
Proof.
  unfold timers_ok. intros He H. simpl. rewrite liveTimers_app, H.
  destruct e; try discriminate; reflexivity.
Qed.

Lemma timers_ok_reach (w : bool) (s s' : State) :
  reach w s s' -> timers_ok s -> timers_ok s'.
Proof.
  induction 1 as [|u u' _ IH [Ht Hs]|u _ IH|u e _ IH He _]; intros H0.
  - exact H0.
  - unfold timers_ok in *. rewrite Ht, Hs. now apply IH.
  - apply timers_ok_saveStats. now apply IH.
  - apply timers_ok_emit; [exact He | now apply IH].
Qed.

Lemma writes_saveStats (s : State) : writes (trace (saveStats s)) = writes (trace s).
Proof.
  rewrite trace_saveStats, writes_app. simpl.
  destruct (saveTimeout s); simpl; now rewrite app_nil_r.
Qed.

Lemma writes_reach (s s' : State) :
  reach false s s' -> writes (trace s') = writes (trace s).
Proof.
  induction 1 as [|u u' _ IH [Ht _]|u _ IH|u e _ IH _ Hw].
  - reflexivity.
  - now rewrite Ht.
  - now rewrite writes_saveStats.
  - simpl. rewrite writes_app, IH. simpl.
    destruct (isWrite e) eqn:E; [now discriminate Hw | now rewrite app_nil_r].
Qed.

Lemma reach_trans (w : bool) (s u v : State) : reach w s u -> reach w u v -> reach w s v.
Proof.
  intros Hsu Huv. induction Huv; eauto using reach.
Qed.

Lemma reach_allow (s s' : State) : reach false s s' -> reach true s s'.
Proof. induction 1; eauto using reach. Qed.

Lemma reach_quiet_step (w : bool) (s s' : State) : quiet s s' -> reach w s s'.
Proof. intros H. eapply reach_quiet; [apply reach_refl | exact H]. Qed.

Lemma quiet_touch (p : string) (s : State) : quiet s (touch p s).
Proof. unfold touch. destruct (lookup p (fileStats (stats s))); now split. Qed.

Lemma same_engine_quiet (s s' : State) : same_engine s s' -> quiet s s'.
Proof. unfold same_engine, quiet. tauto. Qed.

Section Reach.

Variable host : Host.

Lemma updateFileStats_reach (document : TextDocument) (s : State) :
  reach false s (updateFileStats host document s).
Proof.
  destruct (shouldTrackFile host (fsPath document)) eqn:Ht.
  - destruct (Z.eq_dec (f_totalLines (file (fsPath document) s)) (lineCount document))
      as [He|Hne].
    + rewrite updateFileStats_same by assumption.
      apply reach_quiet_step, quiet_touch.
    + rewrite updateFileStats_changed by assumption.
      apply reach_save, reach_quiet_step. now split.
  - rewrite updateFileStats_untracked by assumption. apply reach_refl.
Qed.

Lemma applyCopilotLines_reach (p : string) (k : Z) (s : State) :
  reach false s (applyCopilotLines host p k s).
Proof.
  destruct (Z.le_gt_cases k 0) as [Hk|Hk].
  { rewrite applyCopilotLines_none by assumption. apply reach_quiet_step, quiet_touch. }
  destruct (Z.eq_dec (f_totalLines (file p s)) 0) as [H0|Hne].
  { rewrite applyCopilotLines_pending by assumption.
    apply reach_quiet_step. destruct (quiet_touch p s) as [H1 H2]. now split. }
  destruct (Z.le_gt_cases (f_copilotLines (file p s) + k) (f_totalLines (file p s)))
    as [Hle|Hgt].
  - rewrite applyCopilotLines_commit by assumption.
    apply reach_save, reach_quiet_step. now split.
  - rewrite applyCopilotLines_reject by assumption. apply reach_refl.
Qed.

Lemma onDidChangeTextDocument_reach (document : TextDocument)
      (contentChanges : list string) (s : State) :
  reach false s (onDidChangeTextDocument host document contentChanges s).
Proof.
  unfold onDidChangeTextDocument. cbv zeta.
  destruct (shouldTrackFile host (fsPath document)); [|apply reach_refl].
  simpl negb. cbv iota.
  pose proof (isCopilotChange_same_engine contentChanges s) as Hs.
  destruct (isCopilotChange contentChanges s) as [v s1]. simpl in Hs.
  apply same_engine_quiet in Hs.
  eapply reach_trans; [|apply updateFileStats_reach].
  eapply reach_trans; [apply reach_quiet_step; exact Hs|].
  destruct v; [apply applyCopilotLines_reach | apply reach_refl].
Qed.

Lemma onDidChangeConfiguration_reach (affects : bool) (documents : list TextDocument)
      (s : State) :
  reach false s (onDidChangeConfiguration host affects documents s).
Proof.
  unfold onDidChangeConfiguration. destruct affects; [|apply reach_refl].
  revert s. induction documents as [|d ds IH]; intros s; simpl; [apply reach_refl|].
  eapply reach_trans; [apply updateFileStats_reach | apply IH].
Qed.

Lemma saveStatsToFile_reach (s : State) : reach true s (saveStatsToFile host s).
Proof.
  unfold saveStatsToFile. destruct getRepositoryRoot as [[|c r]|]; try apply reach_refl.
  destruct (String.eqb _ _); [apply reach_refl|].
  destruct (writeSucceeds host).
  - apply reach_quiet
      with (u := emit (WriteFileSync (pathJoin host (String c r) statsFileName)
                         (mkRepositoryStats (stats s) (pathBasename host (String c r))
                                            (toISOString host s)))
                      (tick s)); [|split; reflexivity].
    apply (reach_emit true s (tick s)); [|reflexivity|reflexivity].
    apply reach_quiet_step. now split.
  - apply (reach_emit true s (tick s)); [|reflexivity|discriminate].
    apply reach_quiet_step. now split.
Qed.

Lemma clearStats_reach (s : State) : reach false s (clearStats host s).
Proof.
  unfold clearStats. cbv zeta. rewrite saveStatsToFile_unchanged by reflexivity.
  apply reach_emit; [|reflexivity|discriminate].
  apply reach_quiet_step. now split.
Qed.

Lemma handle_reach (e : Event) (s : State) : reach true s (handle host e s).
Proof.
  destruct e; simpl.
  - unfold provideInlineCompletionItems. destruct automatic; [|apply reach_refl].
    apply reach_quiet_step. now split.
  - apply reach_allow, onDidChangeTextDocument_reach.
  - apply reach_allow, updateFileStats_reach.
  - apply reach_allow, onDidChangeConfiguration_reach.
  - apply reach_allow, clearStats_reach.
  - apply saveStatsToFile_reach.
Qed.

Lemma handle_reach_no_write (e : Event) (s : State) :
  e <> SaveTimeout -> reach false s (handle host e s).
Proof.
  intros Hne. destruct e; simpl.
  - unfold provideInlineCompletionItems. destruct automatic; [|apply reach_refl].
    apply reach_quiet_step. now split.
  - apply onDidChangeTextDocument_reach.
  - apply updateFileStats_reach.
  - apply onDidChangeConfiguration_reach.
  - apply clearStats_reach.
  - contradiction.
Qed.

End Reach.

Lemma activate_trace (host : Host) (loaded : option CopilotStats) :
  activate host loaded =
  match loaded with
  | Some st =>
      mkState st (stringifyStats st) None None false 0 [] 0 0
  | None =>
      mkState (emptyStats (clock host O)) (stringifyStats (emptyStats (clock host O)))
              None None false 0 [] 0 1
  end.
Proof.
  unfold activate. cbv zeta.
  rewrite saveStatsToFile_unchanged by reflexivity.
  destruct loaded; reflexivity.
Qed.

(** X6: in every session the debounce timers, those [scheduleSave] sets
    with [setTimeout], that were not cancelled since are at most one,
    the one the closure holds in [saveTimeout]: each [scheduleSave]
    cancels the timer before it.  (The refresh interval of the status
    bar is another timer, outside the trace.) *)
Theorem session_one_timer (host : Host) (loaded : option CopilotStats)
        (events : list (Host * Event)) :
  timers_ok (run events (activate host loaded)).
Proof.
  unfold run.
  assert (H0 : timers_ok (activate host loaded))
    by (rewrite activate_trace; destruct loaded; reflexivity).
  revert H0. generalize (activate host loaded).
  induction events as [|[h e] es IH]; intros s H0; simpl; [exact H0|].
  apply IH. exact (timers_ok_reach true s _ (handle_reach h e s) H0).
Qed.

(** X7: only the debounce timer writes the snapshot file: no other
    event, the clear command included, adds a file write to the trace. *)
Theorem only_the_timer_writes (host : Host) (e : Event) (s : State) :
  e <> SaveTimeout ->
  writes (trace (handle host e s)) = writes (trace s).
Proof. intros Hne. apply writes_reach. now apply handle_reach_no_write. Qed.

Lemma only_the_timer_writes_witness :
  let s := onDidChangeTextDocument Sample.host (Sample.doc Sample.a_ts 5) ["foo();"]
                                   Sample.fresh in
  writes (trace (handle Sample.host ClearStatsCommand s)) = writes (trace s).
Proof.
  cbv zeta.
  apply (only_the_timer_writes Sample.host ClearStatsCommand
           (onDidChangeTextDocument Sample.host (Sample.doc Sample.a_ts 5) ["foo();"]
                                    Sample.fresh)).
  discriminate.
Defined.

(** ** Pending lines and the quick-reload store in an editor session *)

Lemma quickReload_saveStats (s : State) :
  quickReload (trace (saveStats s)) = Some (Some (stats s)).
Proof.
  rewrite trace_saveStats, quickReload_app. simpl.
  destruct (saveTimeout s); reflexivity.
Qed.

Lemma store_ok_saveStats (s : State) : store_ok (saveStats s).
Proof.
  intros st H. rewrite quickReload_saveStats in H. rewrite stats_saveStats. congruence.
Qed.

Lemma store_ok_same (s s' : State) :
  trace s' = trace s -> stats s' = stats s -> store_ok s -> store_ok s'.
Proof. unfold store_ok. intros Ht Hs H st. rewrite Ht, Hs. apply H. Qed.

Lemma settled_same_engine (s s' : State) : same_engine s s' -> settled s -> settled s'.
Proof.
  intros (Hs & _ & _ & Hp & Ht & _) [H0 H1]. split; [congruence|].
  now apply (store_ok_same s s').
Qed.

Section Settled.

Variable host : Host.

Lemma updateFileStats_settled (document : TextDocument) (s : State) :
  editor_document document -> 0 <= pendingCopilotLines s ->
  settled s \/
  (shouldTrackFile host (fsPath document) = true /\
   f_totalLines (file (fsPath document) s) = 0) ->
  settled (updateFileStats host document s).
Proof.
  unfold editor_document. intros Hn Hp H.
  destruct (shouldTrackFile host (fsPath document)) eqn:Ht.
  - destruct (Z.eq_dec (f_totalLines (file (fsPath document) s)) (lineCount document))
      as [He|Hne].
    + rewrite updateFileStats_same by assumption.
      rewrite touch_nonzero by lia. destruct H as [H|[_ H]]; [exact H | lia].
    + rewrite updateFileStats_changed by assumption. split.
      * rewrite pending_saveStats. unfold updated. cbv zeta. simpl.
        destruct H as [[H _]|[_ H]].
        -- rewrite H. now destruct (_ && _).
        -- rewrite H. simpl. destruct (Z.ltb_spec 0 (pendingCopilotLines s)); lia.
      * apply store_ok_saveStats.
  - rewrite updateFileStats_untracked by assumption.
    destruct H as [H|[H _]]; [exact H | discriminate].
Qed.

Lemma applyCopilotLines_settled (p : string) (k : Z) (s : State) :
  settled s ->
  let s' := applyCopilotLines host p k s in
  0 <= pendingCopilotLines s' /\ (settled s' \/ f_totalLines (file p s') = 0).
Proof.
  intros [Hp Hst]. cbv zeta.
  destruct (Z.le_gt_cases k 0) as [Hk|Hk].
  { rewrite applyCopilotLines_none by assumption.
    destruct (Z.eq_dec (f_totalLines (file p s)) 0) as [H0|Hne].
    - split; [|right; now rewrite file_touch].
      destruct (quiet_touch p s). unfold touch.
      destruct (lookup p (fileStats (stats s))); simpl; lia.
    - rewrite touch_nonzero by assumption. split; [lia | left; now split]. }
  destruct (Z.eq_dec (f_totalLines (file p s)) 0) as [H0|Hne].
  { rewrite applyCopilotLines_pending by assumption. split.
    - simpl. lia.
    - right. unfold file. simpl. fold (file p (touch p s)). now rewrite file_touch. }
  destruct (Z.le_gt_cases (f_copilotLines (file p s) + k) (f_totalLines (file p s)))
    as [Hle|Hgt].
  - rewrite applyCopilotLines_commit by assumption. rewrite pending_saveStats.
    split; [simpl; lia|]. left. split; [now rewrite pending_saveStats|].
    apply store_ok_saveStats.
  - rewrite applyCopilotLines_reject by assumption. split; [lia | left; now split].
Qed.

Lemma onDidChangeTextDocument_settled (document : TextDocument)
      (contentChanges : list string) (s : State) :
  editor_document document -> settled s ->
  settled (onDidChangeTextDocument host document contentChanges s).
Proof.
  intros Hn Hs. unfold onDidChangeTextDocument. cbv zeta.
  destruct (shouldTrackFile host (fsPath document)) eqn:Ht; [|exact Hs].
  simpl negb. cbv iota.
  pose proof (isCopilotChange_same_engine contentChanges s) as He.
  destruct (isCopilotChange contentChanges s) as [v s1]. simpl in He.
  pose proof (settled_same_engine s s1 He Hs) as Hs1.
  destruct v.
  - destruct (applyCopilotLines_settled (fsPath document) (newLinesOf contentChanges)
                                        s1 Hs1) as [Hp H].
    apply updateFileStats_settled; [exact Hn | exact Hp |].
    destruct H as [H|H]; [now left | right; now split].
  - apply updateFileStats_settled; [exact Hn | | now left].
    destruct Hs1 as [Hp _]. lia.
Qed.

Lemma settled_updateFileStats (document : TextDocument) (s : State) :
  editor_document document -> settled s -> settled (updateFileStats host document s).
Proof.
  intros Hn Hs. apply updateFileStats_settled; [exact Hn | | now left].
  destruct Hs as [Hp _]. lia.
Qed.

Lemma settled_saveStatsToFile (s : State) : settled s -> settled (saveStatsToFile host s).
Proof.
  intros [Hp Hst]. unfold saveStatsToFile.
  destruct getRepositoryRoot as [[|c r]|]; try now split.
  destruct (String.eqb _ _); [now split|].
  destruct (writeSucceeds host); (split; [exact Hp|]); intros st; simpl;
    rewrite quickReload_app; simpl; apply Hst.
Qed.

Lemma settled_clearStats (s : State) : settled s -> settled (clearStats host s).
Proof.
  intros [Hp _]. unfold clearStats. cbv zeta.
  rewrite saveStatsToFile_unchanged by reflexivity. split; [exact Hp|].
  intros st. simpl. rewrite quickReload_app. simpl. discriminate.
Qed.

Lemma settled_handle (e : Event) (s : State) :
  editor_event e -> settled s -> settled (handle host e s).
Proof.
  intros He Hs. destruct e; simpl in *.
  - unfold provideInlineCompletionItems. destruct automatic; [|exact Hs].
    destruct Hs as [Hp Hst]. now split.
  - now apply onDidChangeTextDocument_settled.
  - now apply settled_updateFileStats.
  - unfold onDidChangeConfiguration. destruct affects; [|exact Hs].
    revert s Hs. induction He as [|d ds Hd Hds IH]; intros s Hs; simpl; [exact Hs|].
    apply IH. now apply settled_updateFileStats.
  - now apply settled_clearStats.
  - now apply settled_saveStatsToFile.
Qed.

End Settled.

Lemma session_settled (host : Host) (loaded : option CopilotStats)
      (events : list (Host * Event)) :
  Forall (fun he => editor_event (snd he)) events ->
  settled (run events (activate host loaded)).
Proof.
  unfold run.
  assert (H0 : settled (activate host loaded)).
  { rewrite activate_trace. destruct loaded; (split; [reflexivity | intros st; discriminate]). }
  revert H0. generalize (activate host loaded).
  induction events as [|[h e] es IH]; intros s H0 Hok; simpl; [exact H0|].
  inversion Hok as [|x l He Hes]; subst. apply IH; [|exact Hes].
  now apply settled_handle.
Qed.

(** X8: in a session in which every document has at least one line, as
    the editor guarantees, no pending line outlives the event that
    recorded it: [pendingCopilotLines] is 0 after every event, since the
    change handler calls [updateFileStats] for the same document. *)
Theorem session_no_pending_lines (host : Host) (loaded : option CopilotStats)
        (events : list (Host * Event)) :
  Forall (fun he => editor_event (snd he)) events ->
  pendingCopilotLines (run events (activate host loaded)) = 0.
Proof. intros H. exact (proj1 (session_settled host loaded events H)). Qed.

Lemma session_no_pending_lines_witness :
  pendingCopilotLines
    (run [(Sample.host, InlineCompletion true "let x");
          (Sample.host, ChangeTextDocument (Sample.doc Sample.a_ts 3) ["foo();"; "bar"]);
          (Sample.host, OpenTextDocument (Sample.doc Sample.b_ts 7))]
         (activate Sample.host None)) = 0.
Proof.
  apply (session_no_pending_lines Sample.host None
           [(Sample.host, InlineCompletion true "let x");
            (Sample.host, ChangeTextDocument (Sample.doc Sample.a_ts 3) ["foo();"; "bar"]);
            (Sample.host, OpenTextDocument (Sample.doc Sample.b_ts 7))]).
  repeat (apply Forall_cons || apply Forall_nil); simpl;
    unfold editor_document; simpl; try exact I; lia.
Defined.

(** X9: in such a session the quick-reload store never lags: when it
    holds stats, they are the current [stats], after every event. *)
Theorem session_quick_reload_current (host : Host) (loaded : option CopilotStats)
        (events : list (Host * Event)) (st : CopilotStats) :
  Forall (fun he => editor_event (snd he)) events ->
  quickReload (trace (run events (activate host loaded))) = Some (Some st) ->
  st = stats (run events (activate host loaded)).
Proof. intros H. exact (proj2 (session_settled host loaded events H) st). Qed.

Lemma session_quick_reload_current_witness :
  let events :=
    [(Sample.host, ChangeTextDocument (Sample.doc Sample.a_ts 3) ["foo();"; "bar"]);
     (Sample.host, OpenTextDocument (Sample.doc Sample.b_ts 7))] in
  mkCopilotStats 10 2 "2024-01-01T00:00:00.000Z"
                 [(Sample.a_ts, mkFileStat 3 2); (Sample.b_ts, mkFileStat 7 0)]
  = stats (run events (activate Sample.host None)).
Proof.
  cbv zeta.
  apply (session_quick_reload_current Sample.host None
           [(Sample.host, ChangeTextDocument (Sample.doc Sample.a_ts 3) ["foo();"; "bar"]);
            (Sample.host, OpenTextDocument (Sample.doc Sample.b_ts 7))]).
  - repeat (apply Forall_cons || apply Forall_nil); simpl;
      unfold editor_document; simpl; try exact I; lia.
  - reflexivity.
Defined.

(** Without the editor's guarantee the store can lag: a document
    reported with no line gets its record without a call of
    [saveStats]. *)
Example quick_reload_lags_without_lines :
  let s1 := onDidOpenTextDocument Sample.host (Sample.doc Sample.a_ts 5) Sample.fresh in
  let s2 := onDidOpenTextDocument Sample.host (Sample.doc Sample.b_ts 0) s1 in
  quickReload (trace s2) = Some (Some (stats s1)) /\ stats s2 <> stats s1.
Proof. evaluate. Qed.

(** ** Sessions that start from stored stats *)

Lemma run_Inv (events : list (Host * Event)) (s : State) :
  Forall (fun he => event_ok (snd he)) events -> Inv (stats s) ->
  Inv (stats (run events s)).
Proof.
  unfold run. revert s.
  induction events as [|[h e] es IH]; intros s Hok HI; simpl; [exact HI|].
  inversion Hok as [|x l He Hes]; subst. apply IH; [exact Hes|].
  now apply Inv_handle.
Qed.

(** X10: a session keeps the bounds and the sums through every event,
    whether it starts without stored stats or from stored stats in which
    every record is within its bounds and the aggregate is the sum of
    the records. *)
Theorem session_keeps_bounds_and_sums (host : Host) (loaded : option CopilotStats)
        (events : list (Host * Event)) :
  loaded_ok loaded ->
  Forall (fun he => event_ok (snd he)) events ->
  bounds_ok (stats (run events (activate host loaded))) /\
  sums_ok (stats (run events (activate host loaded))).
Proof.
  intros Hl Hok.
  assert (HI : Inv (stats (run events (activate host loaded)))).
  { apply run_Inv; [exact Hok|]. rewrite activate_trace.
    destruct loaded as [st|]; simpl; [exact Hl|]. repeat split. constructor. }
  split; [now apply Inv_bounds | exact (proj2 HI)].
Qed.

Lemma session_keeps_bounds_and_sums_witness :
  let loaded := Some (mkCopilotStats 10 8 "2023-12-31T00:00:00.000Z"
                                     [(Sample.a_ts, mkFileStat 10 8)]) in
  let events :=
    [(Sample.host, ChangeTextDocument (Sample.doc Sample.a_ts 5) ["foo();"]);
     (Sample.host, ClearStatsCommand);
     (Sample.host, OpenTextDocument (Sample.doc Sample.b_ts 7))] in
  bounds_ok (stats (run events (activate Sample.host loaded))) /\
  sums_ok (stats (run events (activate Sample.host loaded))).
Proof.
  cbv zeta.
  apply (session_keeps_bounds_and_sums Sample.host
           (Some (mkCopilotStats 10 8 "2023-12-31T00:00:00.000Z"
                                 [(Sample.a_ts, mkFileStat 10 8)]))
           [(Sample.host, ChangeTextDocument (Sample.doc Sample.a_ts 5) ["foo();"]);
            (Sample.host, ClearStatsCommand);
            (Sample.host, OpenTextDocument (Sample.doc Sample.b_ts 7))]).
  - split; [|split; reflexivity].
    apply Forall_cons; [|apply Forall_nil]. unfold record_ok. simpl. lia.
  - repeat (apply Forall_cons || apply Forall_nil); simpl;
      unfold document_ok; simpl; try exact I; lia.
Defined.

(** ** Activation *)

(** X11: activation persists nothing: it makes no call to the
    quick-reload store, writes no snapshot file and sets no debounce
    timer.  The stats are the loaded ones, or empty ones stamped with
    the first reading of the clock, and the initial [saveStatsToFile]
    compares them with their own serialisation. *)
Theorem activate_persists_nothing (host : Host) (loaded : option CopilotStats) :
  let s := activate host loaded in
  stats s = match loaded with Some st => st | None => emptyStats (clock host O) end /\
  lastSavedStats s = stringifyStats (stats s) /\
  trace s = [] /\
  saveTimeout s = None /\ pendingCopilotLines s = 0 /\
  isAcceptingSuggestion s = false /\ lastCopilotSuggestion s = None.
Proof. cbv zeta. rewrite activate_trace. destruct loaded; repeat split. Qed.

(** ** [saveStatsToFile] *)

(** X12: with a workspace root and a file system that takes the write,
    [saveStatsToFile] leaves [lastSavedStats] equal to the serialised
    stats, writes at most one snapshot, to the path [path.join] gives
    for the root and [.copilot-stats.json], with the current stats and
    the [path.basename] of the root in it, never touches the stats, and
    a second call right after changes nothing. *)
Theorem saveStatsToFile_in_sync (host : Host) (root : string) (s : State) :
  workspaceRoot host = Some root -> root <> EmptyString ->
  writeSucceeds host = true ->
  let s' := saveStatsToFile host s in
  lastSavedStats s' = stringifyStats (stats s') /\
  stats s' = stats s /\
  (trace s' = trace s \/
   trace s' = (trace s ++ [WriteFileSync (pathJoin host root statsFileName)
                             (mkRepositoryStats (stats s) (pathBasename host root)
                                                (clock host (clockReads s)))])%list) /\
  saveStatsToFile host s' = s'.
Proof.
  intros Hr Hne Hw. cbv zeta.
  assert (Hsync : lastSavedStats (saveStatsToFile host s)
                  = stringifyStats (stats (saveStatsToFile host s))).
  { unfold saveStatsToFile, getRepositoryRoot. rewrite Hr.
    destruct root as [|c r]; [contradiction|].
    destruct (String.eqb_spec (stringifyStats (stats s)) (lastSavedStats s)) as [E|E];
      [now symmetry|].
    now rewrite Hw. }
  split; [exact Hsync|]. split; [apply stats_saveStatsToFile|]. split.
  - unfold saveStatsToFile, getRepositoryRoot. rewrite Hr.
    destruct root as [|c r]; [contradiction|].
    destruct (String.eqb _ _); [now left|]. rewrite Hw. right. reflexivity.
  - now apply saveStatsToFile_unchanged.
Qed.

Lemma saveStatsToFile_in_sync_witness :
  let s := onDidOpenTextDocument Sample.host (Sample.doc Sample.a_ts 5) Sample.fresh in
  let s' := saveStatsToFile Sample.host s in
  lastSavedStats s' = stringifyStats (stats s') /\
  stats s' = stats s /\
  (trace s' = trace s \/
   trace s' = (trace s ++ [WriteFileSync "/repo/.copilot-stats.json"
                             (mkRepositoryStats (stats s) "repo"
                                                "2024-01-01T00:00:00.000Z")])%list) /\
  saveStatsToFile Sample.host s' = s'.
Proof.
  cbv zeta.
  apply (saveStatsToFile_in_sync Sample.host "/repo"
           (onDidOpenTextDocument Sample.host (Sample.doc Sample.a_ts 5) Sample.fresh)).
  - reflexivity.
  - discriminate.
  - reflexivity.
Defined.

(** X13: without a workspace root, or when the write fails, nothing is
    written and nothing in memory is rolled back: the stats, the pending
    lines and [lastSavedStats] are as before, so the next call tries
    again. *)
Theorem saveStatsToFile_keeps_memory (host : Host) (s : State) :
  JS.truthy (workspaceRoot host) = false \/ writeSucceeds host = false ->
  let s' := saveStatsToFile host s in
  stats s' = stats s /\
  pendingCopilotLines s' = pendingCopilotLines s /\
  lastSavedStats s' = lastSavedStats s /\
  saveTimeout s' = saveTimeout s /\
  writes (trace s') = writes (trace s).
Proof.
  intros H. cbv zeta. unfold saveStatsToFile, getRepositoryRoot.
  destruct (workspaceRoot host) as [[|c r]|]; try (repeat split; reflexivity).
  destruct H as [H|H]; [discriminate|].
  destruct (String.eqb _ _); [repeat split; reflexivity|].
  rewrite H. repeat split. simpl. rewrite writes_app. simpl. apply app_nil_r.
Qed.

Lemma saveStatsToFile_keeps_memory_witness :
  let h := mkHost defaultExtensions (Some "/repo") false (fun _ => EmptyString)
                  path_join (fun _ => "repo") in
  let s := onDidOpenTextDocument h (Sample.doc Sample.a_ts 5) Sample.fresh in
  let s' := saveStatsToFile h s in
  stats s' = stats s /\
  pendingCopilotLines s' = pendingCopilotLines s /\
  lastSavedStats s' = lastSavedStats s /\
  saveTimeout s' = saveTimeout s /\
  writes (trace s') = writes (trace s).
Proof.
  cbv zeta.
  apply (saveStatsToFile_keeps_memory
           (mkHost defaultExtensions (Some "/repo") false (fun _ => EmptyString)
                  path_join (fun _ => "repo"))
           (onDidOpenTextDocument
              (mkHost defaultExtensions (Some "/repo") false (fun _ => EmptyString)
                  path_join (fun _ => "repo"))
              (Sample.doc Sample.a_ts 5) Sample.fresh)).
  right. reflexivity.
Defined.

(** ** [updateFileStats] and the attribution block, in full *)

Section Accounting.

Variable host : Host.

Lemma file_updated_other (p q : string) (n : Z) (s : State) :
  p <> q ->
  lookup q (fileStats (stats (updated host p n s))) = lookup q (fileStats (stats s)).
Proof. intros H. unfold updated. cbv zeta. simpl. now apply lookup_assign_other. Qed.

(** The stored total after [updateFileStats] on a tracked document. *)
Lemma updateFileStats_total (document : TextDocument) (s : State) :
  shouldTrackFile host (fsPath document) = true ->
  let s' := updateFileStats host document s in
  (exists r, lookup (fsPath document) (fileStats (stats s')) = Some r /\
             f_totalLines r = lineCount document) /\
  totalLines (stats s') =
  totalLines (stats s) - f_totalLines (file (fsPath document) s) + lineCount document.
Proof.
  intros Ht. cbv zeta.
  destruct (Z.eq_dec (f_totalLines (file (fsPath document) s)) (lineCount document))
    as [He|Hne].
  - rewrite updateFileStats_same by assumption. split.
    + exists (file (fsPath document) s). split; [apply lookup_touch | exact He].
    + unfold touch. destruct (lookup _ _); simpl; lia.
  - rewrite updateFileStats_changed by assumption. rewrite stats_saveStats. split.
    + destruct (lookup_updated host (fsPath document) (lineCount document) s) as [c Hc].
      now exists (mkFileStat (lineCount document) c).
    + reflexivity.
Qed.

(** X14: after [updateFileStats] on a tracked document the record of its
    path exists and its total is the line count of the document, and the
    aggregate total has moved by the same difference. *)
Theorem updateFileStats_stores_line_count (document : TextDocument) (s : State) :
  shouldTrackFile host (fsPath document) = true ->
  let s' := updateFileStats host document s in
  (exists r, lookup (fsPath document) (fileStats (stats s')) = Some r /\
             f_totalLines r = lineCount document) /\
  totalLines (stats s') =
  totalLines (stats s) - f_totalLines (file (fsPath document) s) + lineCount document.
Proof. exact (updateFileStats_total document s). Qed.

(** What [updateFileStats] leaves alone. *)
Lemma updateFileStats_other (document : TextDocument) (q : string) (s : State) :
  q <> fsPath document ->
  let s' := updateFileStats host document s in
  lookup q (fileStats (stats s')) = lookup q (fileStats (stats s)) /\
  lastCopilotSuggestion s' = lastCopilotSuggestion s /\
  isAcceptingSuggestion s' = isAcceptingSuggestion s.
Proof.
  intros Hq. cbv zeta.
  destruct (shouldTrackFile host (fsPath document)) eqn:Ht.
  - destruct (Z.eq_dec (f_totalLines (file (fsPath document) s)) (lineCount document))
      as [He|Hne].
    + rewrite updateFileStats_same by assumption. split.
      * apply stats_touch_lookup. congruence.
      * unfold touch. destruct (lookup _ _); now split.
    + rewrite updateFileStats_changed by assumption. rewrite stats_saveStats. split.
      * apply file_updated_other. congruence.
      * unfold saveStats, scheduleSave. simpl. destruct (saveTimeout _); now split.
  - rewrite updateFileStats_untracked by assumption. now repeat split.
Qed.

(** X15: [updateFileStats] on one path leaves the record of every other
    path, and the two suggestion variables, as they are. *)
Theorem updateFileStats_frame (document : TextDocument) (q : string) (s : State) :
  q <> fsPath document ->
  let s' := updateFileStats host document s in
  lookup q (fileStats (stats s')) = lookup q (fileStats (stats s)) /\
  lastCopilotSuggestion s' = lastCopilotSuggestion s /\
  isAcceptingSuggestion s' = isAcceptingSuggestion s.
Proof. exact (updateFileStats_other document q s). Qed.

(** A new line count outside the pending branch. *)
Lemma updateFileStats_no_pending (document : TextDocument) (s : State) :
  shouldTrackFile host (fsPath document) = true ->
  f_totalLines (file (fsPath document) s) <> lineCount document ->
  f_totalLines (file (fsPath document) s) <> 0 \/ pendingCopilotLines s <= 0 ->
  let c := f_copilotLines (file (fsPath document) s) in
  let s' := updateFileStats host document s in
  file (fsPath document) s' = mkFileStat (lineCount document) (Z.min c (lineCount document)) /\
  copilotLines (stats s') =
  copilotLines (stats s) - (c - Z.min c (lineCount document)) /\
  pendingCopilotLines s' = pendingCopilotLines s.
Proof.
  intros Ht Hne Hp. cbv zeta.
  rewrite updateFileStats_changed by assumption.
  rewrite file_saveStats, stats_saveStats, pending_saveStats.
  unfold updated, file at 1. cbv zeta. simpl. rewrite lookup_assign_same.
  assert (Hf : (f_totalLines (file (fsPath document) s) =? 0)
               && (0 <? pendingCopilotLines s) = false).
  { destruct Hp as [Hp|Hp].
    - apply Z.eqb_neq in Hp. now rewrite Hp.
    - apply andb_false_iff. right. apply Z.ltb_ge. exact Hp. }
  rewrite Hf.
  destruct (Z.ltb_spec (lineCount document) (f_copilotLines (file (fsPath document) s)));
    repeat split; try (f_equal; lia); lia.
Qed.

(** X16: when the pending branch does not apply (the stored total is
    not 0, or no line is pending), a new line count leaves the AI lines
    of the file at the minimum of what they were and the new total, and
    takes the difference off the aggregate: growth changes no AI count,
    shrinking clamps. *)
Theorem updateFileStats_clamps (document : TextDocument) (s : State) :
  shouldTrackFile host (fsPath document) = true ->
  f_totalLines (file (fsPath document) s) <> lineCount document ->
  f_totalLines (file (fsPath document) s) <> 0 \/ pendingCopilotLines s <= 0 ->
  let c := f_copilotLines (file (fsPath document) s) in
  let s' := updateFileStats host document s in
  file (fsPath document) s' = mkFileStat (lineCount document) (Z.min c (lineCount document)) /\
  copilotLines (stats s') =
  copilotLines (stats s) - (c - Z.min c (lineCount document)) /\
  pendingCopilotLines s' = pendingCopilotLines s.
Proof. exact (updateFileStats_no_pending document s). Qed.

(** X17: an attribution that fits is committed in full: the AI lines of
    the file and of the aggregate grow by the count, the totals and the
    pending lines stay, and the new stats go to the quick-reload store
    with a fresh debounce timer. *)
Theorem applyCopilotLines_commits (p : string) (count : Z) (s : State) :
  0 < count ->
  f_totalLines (file p s) <> 0 ->
  f_copilotLines (file p s) + count <= f_totalLines (file p s) ->
  let s' := applyCopilotLines host p count s in
  file p s' = mkFileStat (f_totalLines (file p s)) (f_copilotLines (file p s) + count) /\
  copilotLines (stats s') = copilotLines (stats s) + count /\
  totalLines (stats s') = totalLines (stats s) /\
  pendingCopilotLines s' = pendingCopilotLines s /\
  quickReload (trace s') = Some (Some (stats s')) /\
  saveTimeout s' = Some (nextTimer s).
Proof.
  intros Hk Hne Hle. cbv zeta.
  rewrite applyCopilotLines_commit by assumption.
  rewrite file_saveStats, quickReload_saveStats, !stats_saveStats,
    pending_saveStats, saveTimeout_saveStats.
  unfold committed, file at 1. simpl. rewrite lookup_assign_same.
  repeat split.
Qed.

End Accounting.

Lemma updateFileStats_stores_line_count_witness :
  let s' := updateFileStats Sample.host (Sample.doc Sample.a_ts 5) Sample.fresh in
  (exists r, lookup Sample.a_ts (fileStats (stats s')) = Some r /\ f_totalLines r = 5) /\
  totalLines (stats s') = 0 - 0 + 5.
Proof.
  cbv zeta.
  apply (updateFileStats_stores_line_count Sample.host (Sample.doc Sample.a_ts 5)
                                           Sample.fresh).
  reflexivity.
Defined.

Lemma updateFileStats_frame_witness :
  let s := Sample.holding 10 8 [(Sample.a_ts, mkFileStat 10 8)] 0 in
  let s' := updateFileStats Sample.host (Sample.doc Sample.b_ts 4) s in
  lookup Sample.a_ts (fileStats (stats s')) = lookup Sample.a_ts (fileStats (stats s)) /\
  lastCopilotSuggestion s' = lastCopilotSuggestion s /\
  isAcceptingSuggestion s' = isAcceptingSuggestion s.
Proof.
  cbv zeta.
  apply (updateFileStats_frame Sample.host (Sample.doc Sample.b_ts 4) Sample.a_ts
           (Sample.holding 10 8 [(Sample.a_ts, mkFileStat 10 8)] 0)).
  discriminate.
Defined.

Lemma updateFileStats_clamps_witness :
  let s := Sample.holding 10 8 [(Sample.a_ts, mkFileStat 10 8)] 0 in
  let s' := updateFileStats Sample.host (Sample.doc Sample.a_ts 5) s in
  file Sample.a_ts s' = mkFileStat 5 (Z.min 8 5) /\
  copilotLines (stats s') = 8 - (8 - Z.min 8 5) /\
  pendingCopilotLines s' = 0.
Proof.
  cbv zeta.
  apply (updateFileStats_clamps Sample.host (Sample.doc Sample.a_ts 5)
           (Sample.holding 10 8 [(Sample.a_ts, mkFileStat 10 8)] 0)).
  - reflexivity.
  - simpl. lia.
  - left. simpl. lia.
Defined.

Lemma applyCopilotLines_commits_witness :
  let s := Sample.holding 10 3 [(Sample.a_ts, mkFileStat 10 3)] 0 in
  let s' := applyCopilotLines Sample.host Sample.a_ts 2 s in
  file Sample.a_ts s' = mkFileStat 10 (3 + 2) /\
  copilotLines (stats s') = 3 + 2 /\
  totalLines (stats s') = 10 /\
  pendingCopilotLines s' = 0 /\
  quickReload (trace s') = Some (Some (stats s')) /\
  saveTimeout s' = Some (nextTimer s).
Proof.
  cbv zeta.
  apply (applyCopilotLines_commits Sample.host Sample.a_ts 2
           (Sample.holding 10 3 [(Sample.a_ts, mkFileStat 10 3)] 0)).
  - lia.
  - simpl. lia.
  - simpl. lia.
Defined.

(** ** The classifier across events *)

Lemma classifyChange_manual (newText : string) (s : State) :
  fst (classifyChange newText s) = false -> snd (classifyChange newText s) = s.
Proof.
  unfold classifyChange. destruct (isAcceptingSuggestion s); [discriminate|].
  destruct (JS.truthy (lastCopilotSuggestion s) && _); [discriminate | reflexivity].
Qed.

Lemma classifyChange_flag (newText : string) (s : State) :
  isAcceptingSuggestion (snd (classifyChange newText s)) = false.
Proof.
  unfold classifyChange. destruct (isAcceptingSuggestion s) eqn:E; [reflexivity|].
  destruct (JS.truthy (lastCopilotSuggestion s) && _); simpl; exact E.
Qed.

Lemma isCopilotChange_flag (contentChanges : list string) (s : State) :
  contentChanges <> [] ->
  isAcceptingSuggestion (snd (isCopilotChange contentChanges s)) = false.
Proof.
  revert s. induction contentChanges as [|c cs IH]; intros s Hne; [contradiction|].
  simpl. pose proof (classifyChange_flag c s) as Hf.
  pose proof (classifyChange_manual c s) as Hm.
  destruct (classifyChange c s) as [v s1]. simpl in *.
  destruct v; [exact Hf|].
  destruct cs as [|c' cs']; [exact Hf|]. apply IH. discriminate.
Qed.

Lemma flag_saveStats (s : State) :
  isAcceptingSuggestion (saveStats s) = isAcceptingSuggestion s /\
  lastCopilotSuggestion (saveStats s) = lastCopilotSuggestion s.
Proof. unfold saveStats, scheduleSave. simpl. destruct (saveTimeout s); now split. Qed.

Lemma applyCopilotLines_classifier (host : Host) (p : string) (k : Z) (s : State) :
  isAcceptingSuggestion (applyCopilotLines host p k s) = isAcceptingSuggestion s /\
  lastCopilotSuggestion (applyCopilotLines host p k s) = lastCopilotSuggestion s.
Proof.
  assert (Ht : isAcceptingSuggestion (touch p s) = isAcceptingSuggestion s /\
               lastCopilotSuggestion (touch p s) = lastCopilotSuggestion s).
  { unfold touch. destruct (lookup _ _); now split. }
  destruct (Z.le_gt_cases k 0) as [Hk|Hk].
  { now rewrite applyCopilotLines_none by assumption. }
  destruct (Z.eq_dec (f_totalLines (file p s)) 0) as [H0|Hne].
  { now rewrite applyCopilotLines_pending by assumption. }
  destruct (Z.le_gt_cases (f_copilotLines (file p s) + k) (f_totalLines (file p s)))
    as [Hle|Hgt].
  - rewrite applyCopilotLines_commit by assumption.
    destruct (flag_saveStats (committed host p k s)) as [H1 H2].
    rewrite H1, H2. now split.
  - rewrite applyCopilotLines_reject by assumption. now split.
Qed.

Lemma updateFileStats_classifier (host : Host) (document : TextDocument) (s : State) :
  isAcceptingSuggestion (updateFileStats host document s) = isAcceptingSuggestion s /\
  lastCopilotSuggestion (updateFileStats host document s) = lastCopilotSuggestion s.
Proof.
  destruct (shouldTrackFile host (fsPath document)) eqn:Ht.
  - destruct (Z.eq_dec (f_totalLines (file (fsPath document) s)) (lineCount document))
      as [He|Hne].
    + rewrite updateFileStats_same by assumption.
      unfold touch. destruct (lookup _ _); now split.
    + rewrite updateFileStats_changed by assumption.
      destruct (flag_saveStats (updated host (fsPath document) (lineCount document) s))
        as [H1 H2].
      rewrite H1, H2. now split.
  - rewrite updateFileStats_untracked by assumption. now split.
Qed.

(** X18: a verdict of manual consumes nothing: when the callback
    accepts none of the inserted texts of an event, the closure
    variables are exactly as before the classification. *)
Theorem manual_verdict_consumes_nothing (contentChanges : list string) (s : State) :
  fst (isCopilotChange contentChanges s) = false ->
  snd (isCopilotChange contentChanges s) = s.
Proof.
  revert s. induction contentChanges as [|c cs IH]; intros s H; [reflexivity|].
  simpl in *. pose proof (classifyChange_manual c s) as Hm.
  destruct (classifyChange c s) as [v s1]. simpl in *.
  destruct v; [discriminate|]. rewrite (Hm eq_refl) in *. now apply IH.
Qed.

Lemma manual_verdict_consumes_nothing_witness :
  let s := provideInlineCompletionItems false "let x = 1" Sample.fresh in
  snd (isCopilotChange ["a"; "b"] s) = s.
Proof.
  cbv zeta.
  apply (manual_verdict_consumes_nothing ["a"; "b"]
           (provideInlineCompletionItems false "let x = 1" Sample.fresh)).
  reflexivity.
Defined.

(** X20: the acceptance flag does not outlive a change event: after the
    handler has run on a tracked file with at least one inserted text,
    [isAcceptingSuggestion] is false, whatever it was. *)
Theorem acceptance_flag_is_consumed (host : Host) (document : TextDocument)
        (contentChanges : list string) (s : State) :
  shouldTrackFile host (fsPath document) = true ->
  contentChanges <> [] ->
  isAcceptingSuggestion (onDidChangeTextDocument host document contentChanges s) = false.
Proof.
  intros Ht Hne. unfold onDidChangeTextDocument. cbv zeta. rewrite Ht. simpl negb. cbv iota.
  pose proof (isCopilotChange_flag contentChanges s Hne) as Hf.
  destruct (isCopilotChange contentChanges s) as [v s1]. simpl in Hf.
  rewrite (proj1 (updateFileStats_classifier host document _)).
  destruct v; [|exact Hf].
  now rewrite (proj1 (applyCopilotLines_classifier host _ _ s1)).
Qed.

Lemma acceptance_flag_is_consumed_witness :
  isAcceptingSuggestion
    (onDidChangeTextDocument Sample.host (Sample.doc Sample.a_ts 2) ["a"]
       (provideInlineCompletionItems true "let x" Sample.fresh)) = false.
Proof.
  apply (acceptance_flag_is_consumed Sample.host (Sample.doc Sample.a_ts 2) ["a"]
           (provideInlineCompletionItems true "let x" Sample.fresh)).
  - reflexivity.
  - discriminate.
Defined.

(** ** The configuration handler *)

Lemma fold_updateFileStats_other (host : Host) (documents : list TextDocument)
      (q : string) (s : State) :
  ~ In q (map fsPath documents) ->
  lookup q (fileStats (stats (fold_left (fun s d => updateFileStats host d s) documents s)))
  = lookup q (fileStats (stats s)).
Proof.
  revert s. induction documents as [|d ds IH]; intros s Hq; simpl; [reflexivity|].
  simpl in Hq. rewrite IH by tauto.
  apply (updateFileStats_other host d q s). intros E. apply Hq. now left.
Qed.

(** X21: when the configuration of the extension changes, every open
    document that is tracked under the new configuration has its line
    count stored, provided the open documents have distinct paths. *)
Theorem configuration_change_recounts (host : Host) (documents : list TextDocument)
        (d : TextDocument) (s : State) :
  NoDup (map fsPath documents) ->
  In d documents ->
  shouldTrackFile host (fsPath d) = true ->
  exists r,
    lookup (fsPath d)
           (fileStats (stats (onDidChangeConfiguration host true documents s))) = Some r /\
    f_totalLines r = lineCount d.
Proof.
  unfold onDidChangeConfiguration.
  revert s. induction documents as [|d0 ds IH]; intros s Hnd Hin Ht; [contradiction|].
  simpl. simpl in Hnd. inversion Hnd as [|x l Hn0 Hnd']; subst.
  destruct Hin as [->|Hin].
  - rewrite fold_updateFileStats_other by exact Hn0.
    exact (proj1 (updateFileStats_total host d s Ht)).
  - now apply IH.
Qed.

Lemma configuration_change_recounts_witness :
  exists r,
    lookup Sample.b_ts
           (fileStats (stats (onDidChangeConfiguration Sample.host true
                                [Sample.doc Sample.a_ts 3; Sample.doc Sample.b_ts 7]
                                Sample.fresh))) = Some r /\
    f_totalLines r = 7.
Proof.
  apply (configuration_change_recounts Sample.host
           [Sample.doc Sample.a_ts 3; Sample.doc Sample.b_ts 7]
           (Sample.doc Sample.b_ts 7) Sample.fresh).
  - repeat constructor; simpl; intuition discriminate.
  - right. left. reflexivity.
  - reflexivity.
Defined.

(** ** The earlier version *)

Section EarlierVersion.

Variable host : Host.

Lemma earlier_updateFileStats_same (document : TextDocument) (s : State) :
  f_totalLines (file (fsPath document) s) = lineCount document ->
  Earlier.updateFileStats host document s = touch (fsPath document) s.
Proof.
  intros He. unfold Earlier.updateFileStats. cbv zeta.
  now rewrite file_touch, He, Z.eqb_refl.
Qed.

Lemma earlier_updateFileStats_changed (document : TextDocument) (s : State) :
  f_totalLines (file (fsPath document) s) <> lineCount document ->
  Earlier.updateFileStats host document s =
  saveStats (earlierUpdated host (fsPath document) (lineCount document) s).
Proof.
  intros Hne. unfold Earlier.updateFileStats. cbv zeta. rewrite file_touch.
  destruct (Z.eqb_spec (f_totalLines (file (fsPath document) s)) (lineCount document))
    as [|_]; [contradiction|].
  f_equal. unfold set_file_totalLines. rewrite file_touch, set_file_touch.
  unfold touch. destruct (lookup (fsPath document) (fileStats (stats s))); reflexivity.
Qed.

Lemma earlier_applyCopilotLines_commit (p : string) (k : Z) (s : State) :
  0 < k ->
  Earlier.applyCopilotLines host p k s = saveStats (committed host p k s).
Proof.
  intros Hk. unfold Earlier.applyCopilotLines. cbv zeta.
  destruct (Z.ltb_spec 0 k); [|lia].
  f_equal. unfold set_file_copilotLines. rewrite file_touch, set_file_touch.
  unfold touch. destruct (lookup p (fileStats (stats s))); reflexivity.
Qed.

Lemma earlier_applyCopilotLines_none (p : string) (k : Z) (s : State) :
  k <= 0 -> Earlier.applyCopilotLines host p k s = touch p s.
Proof.
  intros Hk. unfold Earlier.applyCopilotLines. cbv zeta.
  destruct (Z.ltb_spec 0 k); [lia | reflexivity].
Qed.

Lemma earlier_sums_updateFileStats (document : TextDocument) (s : State) :
  sums_ok (stats s) -> sums_ok (stats (Earlier.updateFileStats host document s)).
Proof.
  intros Hs.
  destruct (Z.eq_dec (f_totalLines (file (fsPath document) s)) (lineCount document))
    as [He|Hne].
  - rewrite earlier_updateFileStats_same by assumption. now apply sums_ok_touch.
  - rewrite earlier_updateFileStats_changed by assumption. rewrite stats_saveStats.
    destruct Hs as [Ht Hc]. unfold earlierUpdated. split; simpl.
    + rewrite sumTotalLines_assign, totalOf_file. simpl. lia.
    + rewrite sumCopilotLines_assign, copilotOf_file. simpl. lia.
Qed.

Lemma earlier_sums_applyCopilotLines (p : string) (k : Z) (s : State) :
  sums_ok (stats s) -> sums_ok (stats (Earlier.applyCopilotLines host p k s)).
Proof.
  intros Hs. destruct (Z.le_gt_cases k 0) as [Hk|Hk].
  - rewrite earlier_applyCopilotLines_none by assumption. now apply sums_ok_touch.
  - rewrite earlier_applyCopilotLines_commit by assumption. rewrite stats_saveStats.
    destruct Hs as [Ht Hc]. unfold committed. split; simpl.
    + rewrite sumTotalLines_assign, totalOf_file. simpl. lia.
    + rewrite sumCopilotLines_assign, copilotOf_file. simpl. lia.
Qed.

Lemma earlier_classifyChange_same_engine (newText : string) (s : State) :
  same_engine s (snd (Earlier.classifyChange newText s)).
Proof.
  unfold Earlier.classifyChange.
  destruct (JS.truthy (lastCopilotSuggestion s) && _); repeat split.
Qed.

Lemma earlier_isCopilotChange_same_engine (contentChanges : list string) (s : State) :
  same_engine s (snd (Earlier.isCopilotChange contentChanges s)).
Proof.
  revert s. induction contentChanges as [|c cs IH]; intros s; simpl.
  - apply same_engine_refl.
  - pose proof (earlier_classifyChange_same_engine c s) as Hc.
    destruct (Earlier.classifyChange c s) as [v s1]. simpl in Hc.
    destruct v; [exact Hc|].
    eapply same_engine_trans; [exact Hc | apply IH].
Qed.

(** X22: the earlier version keeps the sums on their own: from any state
    in which the aggregate is the sum of the records, its change handler
    and its [updateFileStats] end in such a state, for every document
    and without any assumption on the bounds. *)
Theorem earlier_keeps_sums (document : TextDocument) (contentChanges : list string)
        (s : State) :
  sums_ok (stats s) ->
  sums_ok (stats (Earlier.onDidChangeTextDocument host document contentChanges s)) /\
  sums_ok (stats (Earlier.updateFileStats host document s)).
Proof.
  intros Hs. split; [|now apply earlier_sums_updateFileStats].
  unfold Earlier.onDidChangeTextDocument.
  pose proof (earlier_isCopilotChange_same_engine contentChanges s) as [He _].
  destruct (Earlier.isCopilotChange contentChanges s) as [v s1]. simpl in He.
  apply earlier_sums_updateFileStats.
  destruct v; [apply earlier_sums_applyCopilotLines|]; now rewrite He.
Qed.

(** X23: the earlier version never rejects an attribution: a positive
    count is added to the AI lines of the file and of the aggregate
    also when that takes them above the stored total, which leaves the
    record of the file outside its bounds. *)
Theorem earlier_attribution_unbounded (p : string) (count : Z) (s : State) :
  0 < count ->
  f_totalLines (file p s) < f_copilotLines (file p s) + count ->
  let s' := Earlier.applyCopilotLines host p count s in
  file p s' = mkFileStat (f_totalLines (file p s)) (f_copilotLines (file p s) + count) /\
  copilotLines (stats s') = copilotLines (stats s) + count /\
  ~ record_ok (file p s').
Proof.
  intros Hk Hgt. cbv zeta. rewrite earlier_applyCopilotLines_commit by assumption.
  rewrite file_saveStats, stats_saveStats.
  assert (Hf : file p (committed host p count s)
               = mkFileStat (f_totalLines (file p s)) (f_copilotLines (file p s) + count)).
  { unfold committed, file at 1. simpl. now rewrite lookup_assign_same. }
  rewrite Hf. repeat split. intros [_ H]. simpl in H. lia.
Qed.

(** X24: the earlier [updateFileStats] has no file filter: for every
    path, the snapshot file included, the record exists afterwards with
    the line count of the document as its total, and a second call
    changes nothing. *)
Theorem earlier_updateFileStats_counts_every_file (document : TextDocument) (s : State) :
  let s' := Earlier.updateFileStats host document s in
  (exists r, lookup (fsPath document) (fileStats (stats s')) = Some r /\
             f_totalLines r = lineCount document) /\
  Earlier.updateFileStats host document s' = s'.
Proof.
  cbv zeta.
  destruct (Z.eq_dec (f_totalLines (file (fsPath document) s)) (lineCount document))
    as [He|Hne].
  - rewrite earlier_updateFileStats_same by assumption. split.
    + exists (file (fsPath document) s). split; [apply lookup_touch | exact He].
    + rewrite earlier_updateFileStats_same by (now rewrite file_touch).
      apply touch_touch.
  - rewrite earlier_updateFileStats_changed by assumption.
    assert (Hl : lookup (fsPath document)
                   (fileStats (stats (saveStats
                      (earlierUpdated host (fsPath document) (lineCount document) s))))
                 = Some (mkFileStat (lineCount document)
                                    (f_copilotLines (file (fsPath document) s)))).
    { rewrite stats_saveStats. unfold earlierUpdated. simpl. apply lookup_assign_same. }
    split.
    + eexists. split; [exact Hl | reflexivity].
    + rewrite earlier_updateFileStats_same.
      * eapply touch_existing. exact Hl.
      * unfold file. now rewrite Hl.
Qed.

End EarlierVersion.

Lemma earlier_keeps_sums_witness :
  let s := Sample.holding 0 3 [(Sample.a_ts, mkFileStat 0 3)] 2 in
  let d := Sample.doc Sample.a_ts 5 in
  sums_ok (stats (Earlier.onDidChangeTextDocument Sample.host d ["x;"] s)) /\
  sums_ok (stats (Earlier.updateFileStats Sample.host d s)).
Proof.
  cbv zeta.
  apply (earlier_keeps_sums Sample.host (Sample.doc Sample.a_ts 5) ["x;"]
           (Sample.holding 0 3 [(Sample.a_ts, mkFileStat 0 3)] 2)).
  split; reflexivity.
Defined.

Lemma earlier_attribution_unbounded_witness :
  let s := Sample.holding 5 5 [("f", mkFileStat 5 5)] 0 in
  let s' := Earlier.applyCopilotLines Sample.host "f" 2 s in
  file "f" s' = mkFileStat 5 (5 + 2) /\
  copilotLines (stats s') = 5 + 2 /\
  ~ record_ok (file "f" s').
Proof.
  cbv zeta.
  apply (earlier_attribution_unbounded Sample.host "f" 2
           (Sample.holding 5 5 [("f", mkFileStat 5 5)] 0)).
  - lia.
  - simpl. lia.
Defined.

Lemma earlier_fold_count (contentChanges : list string) (start : Z) :
  fold_left (fun count change =>
               count + (Z.of_nat (List.length (JS.split JS.LF change)) - 1))
            contentChanges start =
  start + Z.of_nat (lineFeedsOfAll contentChanges).
Proof.
  revert start. induction contentChanges as [|c cs IH]; intros start; simpl.
  - lia.
  - rewrite IH, split_length. lia.
Qed.

(** X25: the earlier version counts line feeds, not non-empty lines:
    the lines it attributes for an event are the line feeds of all its
    inserted texts, so an insertion without a line feed attributes
    nothing and blank lines count. *)
Theorem earlier_counts_line_feeds (contentChanges : list string) :
  Earlier.newLinesOf contentChanges = Z.of_nat (lineFeedsOfAll contentChanges).
Proof. unfold Earlier.newLinesOf. now rewrite earlier_fold_count. Qed.

Lemma includes_LF_countLF (text : string) :
  JS.includes text (String JS.LF EmptyString) = (0 <? countLF text)%nat.
Proof.
  rewrite includes_char. induction text as [|c text IH]; [reflexivity|].
  cbn [existsb list_ascii_of_string countLF]. rewrite IH, (Ascii.eqb_sym JS.LF c).
  destruct (Ascii.eqb c JS.LF); reflexivity.
Qed.

(** X26: in the earlier version the shape heuristic needs both signs:
    when no offered line matches (none is set, the one set is empty, or
    the text does not contain it), a text is classified as AI exactly
    when it contains a line feed and its trimmed form ends with [;], [}]
    or [)], so a single-line insertion is never attributed by shape; the
    closure variables stay as they are. *)
Theorem earlier_shape_needs_line_feed (newText : string) (s : State) :
  (forall offered, lastCopilotSuggestion s = Some offered ->
                   offered <> EmptyString -> JS.includes newText offered = false) ->
  Earlier.classifyChange newText s =
  ((0 <? countLF newText)%nat &&
   match lastChar (JS.trim newText) with
   | Some a => existsb (Ascii.eqb a) [";"%char; "}"%char; ")"%char]
   | None => false
   end, s).
Proof.
  intros Hl. unfold Earlier.classifyChange, Earlier.isCompleteStatement.
  assert (Hm : JS.truthy (lastCopilotSuggestion s) &&
               JS.includes newText
                 (match lastCopilotSuggestion s with
                  | Some t => t
                  | None => EmptyString
                  end) = false).
  { destruct (lastCopilotSuggestion s) as [[|c offered]|]; try reflexivity.
    simpl JS.truthy. rewrite (Hl (String c offered) eq_refl); [reflexivity | discriminate]. }
  rewrite Hm. cbv iota zeta.
  rewrite includes_LF_countLF, !endsWith_char.
  destruct (lastChar (JS.trim newText)) as [a|]; [|reflexivity].
  simpl. now rewrite orb_false_r, <- !orb_assoc.
Qed.

Lemma earlier_shape_needs_line_feed_witness :
  let s := Earlier.provideInlineCompletionItems true "let x" Sample.fresh in
  Earlier.classifyChange "foo();" s = (false, s).
Proof.
  cbv zeta.
  apply (earlier_shape_needs_line_feed "foo();"
           (Earlier.provideInlineCompletionItems true "let x" Sample.fresh)).
  intros offered H _. injection H as <-. reflexivity.
Defined.

(** The same insertion in both versions: the earlier one takes it for
    typed, the current one for AI. *)
Example single_line_statement_in_both_versions :
  fst (Earlier.classifyChange "foo();" Sample.fresh) = false /\
  fst (classifyChange "foo();" Sample.fresh) = true.
Proof. evaluate. Qed.

(** ** One verdict for the whole event *)







